(** * The anomaly-detection ensemble of [lib/ai/anomaly-detector]

    A shallow embedding of the TypeScript module that defines
    [StatisticalDetectors], [MLDetectors], [TimeSeriesDetectors] and
    [EnterpriseAnomalyDetector]: the detectors, the coordinator [detect] with
    its ensemble vote, and the explanation generator; and of what [detect]
    calls in [lib/observability/metrics], the metrics engine and the tracer.

    A JavaScript [number] is an IEEE-754 binary64 value.  The code is written
    over the interface [Number], whose instance [Float64] is Rocq's primitive
    binary64 floats: they compute, with rounding, infinities and NaN.  What
    a function does by its structure alone is proved for every instance of
    the interface; what depends on the arithmetic is proved on [Float64].

    [Math.random], [Date.now] and [new Date] are effects: they read a [World]
    that is threaded through the coordinator.  An exception is a [Throw]
    result.

    The file has three parts: the embedding of the source, the vocabulary of
    the statements, and the properties with their proofs. *)

From Stdlib Require Import ZArith List Bool String Ascii Lia.
From Stdlib Require Import DecimalString.
From Stdlib Require Import Floats.
Import ListNotations.

Set Warnings "-inexact-float".
Set Implicit Arguments.

(** ** The interface of JavaScript numbers *)

Class Number (T : Type) := {
  nadd : T -> T -> T;
  nsub : T -> T -> T;
  nmul : T -> T -> T;
  ndiv : T -> T -> T;
  nopp : T -> T;
  (** [a < b] and [a === b] *)
  nlt : T -> T -> bool;
  neq : T -> T -> bool;
  Math_abs : T -> T;
  Math_sqrt : T -> T;
  Math_min : T -> T -> T;
  Math_max : T -> T -> T;
  Math_pow : T -> T -> T;
  Math_log : T -> T;
  Math_log2 : T -> T;
  (** [Math.floor] and [Math.ceil], read as integers; they are applied to
      finite numbers only *)
  Math_floor : T -> Z;
  Math_ceil : T -> Z;
  (** an integer-valued number: an integer literal, an array length *)
  of_Z : Z -> T;
  (** what arithmetic on [undefined] gives *)
  NaN : T;
  (** [Number.prototype.toFixed] *)
  toFixed : T -> nat -> string
}.

Declare Scope js_scope.
Delimit Scope js_scope with js.
Infix "+" := nadd : js_scope.
Infix "-" := nsub : js_scope.
Infix "*" := nmul : js_scope.
Infix "/" := ndiv : js_scope.
Notation "- x" := (nopp x) : js_scope.
Infix "<" := nlt : js_scope.
Infix "===" := neq (at level 70, no associativity) : js_scope.
Notation "a > b" := (nlt b a) : js_scope.

(** A decimal literal [n/d] with [d] a power of ten, such as [0.6745]: the
    quotient of two integers that binary64 holds exactly is rounded once, as
    the literal is. *)
Definition dec {T} `{Number T} (n d : Z) : T := ndiv (of_Z n) (of_Z d).

(** The digits of [toFixed]: [n] is the rounded value scaled by [10^d]. *)
Fixpoint zeros (k : nat) : string :=
  match k with
  | O => EmptyString
  | S k' => String "0" (zeros k')
  end.

Definition string_of_Z (z : Z) : string := NilZero.string_of_int (Z.to_int z).

Definition fixed_string (neg : bool) (n : Z) (d : nat) : string :=
  let digits := NilZero.string_of_uint (N.to_uint (Z.to_N n)) in
  let padded := (zeros (S d - String.length digits) ++ digits)%string in
  let k := (String.length padded - d)%nat in
  let body :=
    match d with
    | O => padded
    | S _ => (substring 0 k padded ++ "." ++ substring k d padded)%string
    end in
  if neg then ("-" ++ body)%string else body.

(** ** Binary64 *)

Module F64.

Local Open Scope float_scope.

Definition is_nan (x : float) : bool := negb (PrimFloat.eqb x x).

Definition is_neg_zero (x : float) : bool :=
  PrimFloat.eqb x 0 && PrimFloat.ltb (1 / x) 0.

(** [Math.min] and [Math.max] of two numbers: NaN if either is, and
    [-0 < +0]. *)
Definition min (a b : float) : float :=
  if is_nan a || is_nan b then nan
  else if PrimFloat.ltb a b then a
  else if PrimFloat.ltb b a then b
  else if is_neg_zero a then a else b.

Definition max (a b : float) : float :=
  if is_nan a || is_nan b then nan
  else if PrimFloat.ltb a b then b
  else if PrimFloat.ltb b a then a
  else if is_neg_zero a then b else a.

Definition of_Z (z : Z) : float :=
  match z with
  | Z0 => 0
  | Zpos _ => of_uint63 (Uint63.of_Z z)
  | Zneg _ => - of_uint63 (Uint63.of_Z (- z))
  end.

(** The integer part of a finite float, rounded down. *)
Definition floor (x : float) : Z :=
  match Prim2SF x with
  | S754_finite s m e =>
      let sm := if s then Zneg m else Zpos m in
      if (0 <=? e)%Z then (sm * 2 ^ e)%Z else (sm / 2 ^ (- e))%Z
  | _ => 0%Z
  end.

Definition ceil (x : float) : Z := (- floor (- x))%Z.

(** *** A reference libm

    ECMAScript leaves [Math.log], [Math.log2] and [Math.pow] to the
    implementation ("implementation-approximated"), apart from their special
    cases.  These are series evaluations, accurate to a few units in the
    last place; [log2] is exact on the powers of two and [pow x 2] is
    [x * x]. *)

Definition ln2 : float := 0.6931471805599453.
Definition sqrt_half : float := 0.7071067811865476.

(** [t + t^3/3 + ... ] with [k] terms, [p] the current odd power of [t] and
    [j] its exponent *)
Fixpoint atanh_terms (k : nat) (p t2 j : float) : float :=
  match k with
  | O => 0
  | S k' => p / j + atanh_terms k' (p * t2) t2 (j + 2)
  end.

(** [(e, ln m)] where [x = m * 2^e] and [sqrt 1/2 <= m < sqrt 2] *)
Definition ln_parts (x : float) : Z * float :=
  let (m0, e0) := Z.frexp x in
  let (m, e) := if PrimFloat.ltb m0 sqrt_half then (m0 * 2, (e0 - 1)%Z) else (m0, e0) in
  let t := (m - 1) / (m + 1) in
  (e, 2 * atanh_terms 14 t (t * t) 1).

Definition log (x : float) : float :=
  if is_nan x || PrimFloat.ltb x 0 then nan
  else if PrimFloat.eqb x 0 then neg_infinity
  else if PrimFloat.eqb x infinity then infinity
  else let (e, l) := ln_parts x in of_Z e * ln2 + l.

Definition log2 (x : float) : float :=
  if is_nan x || PrimFloat.ltb x 0 then nan
  else if PrimFloat.eqb x 0 then neg_infinity
  else if PrimFloat.eqb x infinity then infinity
  else let (e, l) := ln_parts x in of_Z e + l / ln2.

(** [1 + r + r^2/2! + ...] by Horner's rule, [k] terms from the [j]-th *)
Fixpoint exp_terms (k : nat) (r j : float) : float :=
  match k with
  | O => 1
  | S k' => 1 + r / j * exp_terms k' r (j + 1)
  end.

Definition exp (z : float) : float :=
  if is_nan z then nan
  else if PrimFloat.ltb 710 z then infinity
  else if PrimFloat.ltb z (-746) then 0
  else
    let k := floor (z / ln2 + 0.5) in
    let r := z - of_Z k * ln2 in
    Z.ldexp (exp_terms 20 r 1) k.

Definition is_integer (y : float) : bool :=
  match Prim2SF y with
  | S754_zero _ => true
  | S754_finite _ _ _ => PrimFloat.eqb (of_Z (floor y)) y
  | _ => false
  end.

Definition pow (x y : float) : float :=
  if is_nan y then nan
  else if PrimFloat.eqb y 0 then 1
  else if is_nan x then nan
  else if PrimFloat.eqb y 1 then x
  else if PrimFloat.eqb y 2 then x * x
  else if PrimFloat.ltb 0 x then exp (y * log x)
  else if PrimFloat.eqb x 0 then (if PrimFloat.ltb 0 y then 0 else infinity)
  else if is_integer y then
    (if Z.even (floor y) then exp (y * log (- x)) else - exp (y * log (- x)))
  else nan.

(** [x.toFixed(d)]: the exact value scaled by [10^d] and rounded to the
    nearest integer, the larger one on a tie.  From [1e21] on JavaScript
    prints [ToString(x)] (exponent form); that branch is not reproduced. *)
Definition toFixed (x : float) (d : nat) : string :=
  match Prim2SF x with
  | S754_nan => "NaN"
  | S754_infinity s => if s then "-Infinity" else "Infinity"
  | S754_zero _ => fixed_string false 0 d
  | S754_finite s m e =>
      let scaled := (Zpos m * 10 ^ Z.of_nat d)%Z in
      let n := if (0 <=? e)%Z then (scaled * 2 ^ e)%Z
               else ((2 * scaled + 2 ^ (- e)) / 2 ^ (- e + 1))%Z in
      fixed_string s n d
  end.

End F64.

#[export] Instance Float64 : Number float := {
  nadd := PrimFloat.add;
  nsub := PrimFloat.sub;
  nmul := PrimFloat.mul;
  ndiv := PrimFloat.div;
  nopp := PrimFloat.opp;
  nlt := PrimFloat.ltb;
  neq := PrimFloat.eqb;
  Math_abs := PrimFloat.abs;
  Math_sqrt := PrimFloat.sqrt;
  Math_min := F64.min;
  Math_max := F64.max;
  Math_pow := F64.pow;
  Math_log := F64.log;
  Math_log2 := F64.log2;
  Math_floor := F64.floor;
  Math_ceil := F64.ceil;
  of_Z := F64.of_Z;
  NaN := nan;
  toFixed := F64.toFixed
}.

Infix "<=" := (fun a b => nlt a b || neq a b) (only parsing) : js_scope.
Notation "a >= b" := (nlt b a || neq a b) (only parsing) : js_scope.
Notation "# n" := (of_Z n) (at level 1, format "# n") : js_scope.

(** ** Data model

    Field names are global in Rocq: the fields of the result keep the names
    of the source, those of a detector's entry are prefixed [alg_], those of
    the three detector return shapes [dev_], [rng_] and [ml_], and those of
    the vote [vote_].  Dates are milliseconds, and lengths and
    [minDataPoints] are integers. *)

Record DataPoint (T : Type) := {
  timestamp : Z;
  value : T;
  metric : string;
  dimensions : option (list (string * string))
}.

Inductive Sensitivity := low | medium | high | adaptive.

Inductive Weighting := by_performance | by_confidence | by_adaptive.

Inductive Severity := info | warning | critical.

(** [algorithms] holds strings: the union type of the declaration is erased
    at run time, and [includes] compares strings. *)
Record AdvancedDetectorConfig := {
  algorithms : list string;
  sensitivity : Sensitivity;
  contextWindow : Z;
  seasonalityPeriods : list Z;
  adaptiveLearning : bool;
  ensembleWeighting : Weighting;
  minDataPoints : Z
}.

(** An element of [AnomalyResult['algorithms']] *)
Record AlgorithmResult (T : Type) := {
  alg_name : string;
  alg_score : T;
  alg_isAnomaly : bool;
  alg_contribution : T;
  alg_executionTime : Z
}.

Record Explanation (T : Type) := {
  reason : string;
  expectedRange : T * T;
  actualValue : T;
  historicalContext : string;
  seasonalPattern : option string;
  deviation : T
}.

Record Metadata := {
  processingTimeMs : Z;
  dataPointsAnalyzed : Z;
  modelVersion : string;
  algorithm : string
}.

Record AnomalyResult (T : Type) := {
  isAnomaly : bool;
  confidence : T;
  severity : Severity;
  score : T;
  result_algorithms : list (AlgorithmResult T);
  explanation : Explanation T;
  metadata : Metadata
}.

Record PerformanceMetrics (T : Type) := {
  accuracy : T;
  precision : T;
  recall : T;
  f1Score : T;
  falsePositiveRate : T;
  lastUpdated : Z
}.

(** What the detectors return: [{isAnomaly, score, deviation}],
    [{isAnomaly, score, expectedRange}] and [{isAnomaly, score}]. *)
Record DeviationVerdict (T : Type) := {
  dev_isAnomaly : bool;
  dev_score : T;
  dev_deviation : T
}.

Record RangeVerdict (T : Type) := {
  rng_isAnomaly : bool;
  rng_score : T;
  rng_expectedRange : T * T
}.

Record Verdict (T : Type) := {
  ml_isAnomaly : bool;
  ml_score : T
}.

(** A thrown exception, and a computation that may throw. *)
Inductive JsError := TypeError (message : string).

Inductive Result (A : Type) :=
| Ok (a : A)
| Throw (e : JsError).

Arguments Ok {A} a.
Arguments Throw {A} e.

(** ** Arrays *)

Section Arrays.

Context {T : Type} `{Number T}.
Local Open Scope js_scope.

(** [a[i]] inside arithmetic: out of range it is [undefined], which
    arithmetic turns into NaN. *)
Definition array_get (a : list T) (i : Z) : T :=
  if (i <? 0)%Z then NaN else nth (Z.to_nat i) a NaN.

Definition len {A} (a : list A) : T := #(Z.of_nat (List.length a)).

(** [a.sort(cmp)]: the sort is stable, and [x] goes behind [y] when
    [cmp(x, y) > 0].  For a comparator that orders the array consistently
    every stable sort returns the same array; this one inserts from the
    right. *)
Fixpoint insert_by {A} (cmp : A -> A -> T) (x : A) (l : list A) : list A :=
  match l with
  | [] => [x]
  | y :: l' => if cmp x y > #0 then y :: insert_by cmp x l' else x :: l
  end.

Definition sort_by {A} (cmp : A -> A -> T) (l : list A) : list A :=
  fold_right (insert_by cmp) [] l.

(** [a.reduce((a, b) => a + b, 0)] *)
Definition sum (a : list T) : T := fold_left (fun a b => a + b) a #0.

End Arrays.

(** ** StatisticalDetectors *)

Module StatisticalDetectors.
Section Detectors.

Context {T : Type} `{Number T}.
Local Open Scope js_scope.

Definition median (sorted : list T) : T :=
  let n := Z.of_nat (List.length sorted) in
  let mid := (n / 2)%Z in
  if Z.even n
  then (array_get sorted (mid - 1) + array_get sorted mid) / #2
  else array_get sorted mid.

Definition percentile (sorted : list T) (p : T) : T :=
  let index := (p / #100) * (len sorted - #1) in
  let lower := Math_floor index in
  let upper := Math_ceil index in
  let weight := index - #lower in
  array_get sorted lower * (#1 - weight) + array_get sorted upper * weight.

Definition zScore (value : T) (data : list T) (threshold : T)
  : DeviationVerdict T :=
  if (List.length data <? 2)%nat
  then {| dev_isAnomaly := false; dev_score := #0; dev_deviation := #0 |}
  else
    let mean := fold_left (fun a b => a + b) data #0 / len data in
    let variance :=
      fold_left (fun a b => a + Math_pow (b - mean) #2) data #0 / len data in
    let stdDev := Math_sqrt variance in
    if stdDev === #0
    then {| dev_isAnomaly := false; dev_score := #0; dev_deviation := #0 |}
    else
      let zScore := Math_abs ((value - mean) / stdDev) in
      let deviation := zScore in
      {| dev_isAnomaly := zScore > threshold;
         dev_score := Math_min (zScore / threshold) #1;
         dev_deviation := deviation |}.

Definition mad (value : T) (data : list T) (threshold : T)
  : DeviationVerdict T :=
  if (List.length data <? 2)%nat
  then {| dev_isAnomaly := false; dev_score := #0; dev_deviation := #0 |}
  else
    let sorted := sort_by (fun a b => a - b) data in
    let median_ := median sorted in
    let deviations := map (fun x => Math_abs (x - median_)) data in
    let mad := median deviations in
    if mad === #0
    then {| dev_isAnomaly := false; dev_score := #0; dev_deviation := #0 |}
    else
      let modifiedZScore := (dec 6745 10000 * Math_abs (value - median_)) / mad in
      let deviation := modifiedZScore in
      {| dev_isAnomaly := modifiedZScore > threshold;
         dev_score := Math_min (modifiedZScore / threshold) #1;
         dev_deviation := deviation |}.

Definition iqr (value : T) (data : list T) (multiplier : T)
  : RangeVerdict T :=
  if (List.length data <? 4)%nat
  then {| rng_isAnomaly := false; rng_score := #0;
          rng_expectedRange := (#0, #0) |}
  else
    let sorted := sort_by (fun a b => a - b) data in
    let q1 := percentile sorted #25 in
    let q3 := percentile sorted #75 in
    let iqr := q3 - q1 in
    let lowerBound := q1 - multiplier * iqr in
    let upperBound := q3 + multiplier * iqr in
    let isAnomaly := (value < lowerBound) || (value > upperBound) in
    let distance :=
      if value < lowerBound then (lowerBound - value) / iqr
      else if value > upperBound then (value - upperBound) / iqr
      else #0 in
    {| rng_isAnomaly := isAnomaly;
       rng_score := Math_min distance #1;
       rng_expectedRange := (lowerBound, upperBound) |}.

(** The default arguments [threshold = 3], [threshold = 3.5] and
    [multiplier = 1.5]. *)
Definition zScore_threshold : T := #3.
Definition mad_threshold : T := dec 35 10.
Definition iqr_multiplier : T := dec 15 10.

(** *** [gesd]

    The outliers are a [Set<number>], kept here in insertion order.
    [Set.prototype.add] first turns the value [-0] into [+0]; it then leaves
    the set alone when the value is in it already ([NaN] equals [NaN]), and
    appends the value otherwise. *)
Definition sameValueZero (x y : T) : bool :=
  (x === y) || (negb (x === x) && negb (y === y)).

(** The key a keyed collection stores for a value: [+0] for both zeros (the
    literal [#0] is [+0], and [x === #0] holds of both), the value itself
    otherwise. *)
Definition canonicalKey (x : T) : T := if x === #0 then #0 else x.

Definition set_add (x : T) (s : list T) : list T :=
  let key := canonicalKey x in
  if existsb (sameValueZero key) s then s else s ++ [key].

(** [a.splice(start, 1)]; a negative [start] counts from the end. *)
Definition splice_one {A} (a : list A) (start : Z) : list A :=
  let n := Z.of_nat (List.length a) in
  let from := if (start <? 0)%Z then Z.max (n + start) 0 else Z.min start n in
  firstn (Z.to_nat from) a ++ skipn (S (Z.to_nat from)) a.

(** [workingData.forEach((val, idx) => { ... })]: the largest deviation met
    so far and its index. *)
Fixpoint gesdScan (mean stdDev : T) (workingData : list T) (idx : Z)
         (maxDeviation : T) (maxIndex : Z) : T * Z :=
  match workingData with
  | [] => (maxDeviation, maxIndex)
  | val :: rest =>
      let deviation := Math_abs (val - mean) / stdDev in
      if deviation > maxDeviation
      then gesdScan mean stdDev rest (idx + 1)%Z deviation idx
      else gesdScan mean stdDev rest (idx + 1)%Z maxDeviation maxIndex
  end.

(** [for (let i = 0; i < maxOutliers && workingData.length > 2; i++)], with
    [remaining = maxOutliers - i] turns left.  [maxIndex] starts at [-1] and
    is an index of [workingData] once a deviation exceeded the critical
    value. *)
Fixpoint gesdLoop (remaining : nat) (workingData outliers : list T) : list T :=
  match remaining with
  | O => outliers
  | S remaining' =>
      if (2 <? List.length workingData)%nat
      then
        let mean := fold_left (fun a b => a + b) workingData #0
                    / len workingData in
        let stdDev :=
          Math_sqrt
            (fold_left (fun a b => a + Math_pow (b - mean) #2) workingData #0
             / len workingData) in
        let found := gesdScan mean stdDev workingData 0 #0 (-1) in
        let maxDeviation := fst found in
        let maxIndex := snd found in
        let criticalValue := #3 in
        if maxDeviation > criticalValue
        then gesdLoop remaining' (splice_one workingData maxIndex)
                      (set_add (array_get workingData maxIndex) outliers)
        else outliers
      else outliers
  end.

Definition gesd (data : list T) (maxOutliers : nat) : list T :=
  if (List.length data <? 3)%nat then []
  else gesdLoop maxOutliers data [].

(** The default argument [maxOutliers = 10]; [alpha] is not read. *)
Definition gesd_maxOutliers : nat := 10.

End Detectors.
End StatisticalDetectors.

(** ** The world: random numbers and the clock

    [Math.random()] takes the next number of a stream and [Date.now()] the
    next reading of the clock; a computation passes the rest on. *)

Record World (T : Type) := {
  randoms : nat -> T;
  clock : nat -> Z
}.

Definition M (T A : Type) : Type := World T -> A * World T.

Definition ret {T A} (a : A) : M T A := fun w => (a, w).

Definition bind {T A B} (m : M T A) (k : A -> M T B) : M T B :=
  fun w => let p := m w in k (fst p) (snd p).

Notation "x <- m ;; k" := (bind m (fun x => k))
  (at level 61, m at next level, right associativity).
Notation "m ;;; k" := (bind m (fun _ => k))
  (at level 61, right associativity).

Definition Math_random {T} : M T T :=
  fun w => (randoms w 0%nat,
            {| randoms := fun n => randoms w (S n); clock := clock w |}).

Definition Date_now {T} : M T Z :=
  fun w => (clock w 0%nat,
            {| randoms := randoms w; clock := fun n => clock w (S n) |}).

(** ** MLDetectors *)

Module MLDetectors.
Section Detectors.

Context {T : Type} `{Number T}.
Local Open Scope js_scope.

(** The body of [while (subset.length > 1 && depth < maxDepth)]: [depth]
    goes up by one each turn, so [remaining = maxDepth - depth] turns are
    left. *)
Fixpoint isolationLoop (remaining : nat) (value : T) (subset : list T)
         (depth : Z) : M T Z :=
  match remaining, subset with
  | S remaining', x :: (_ :: _) as rest =>
      let min := fold_left Math_min rest x in
      let max := fold_left Math_max rest x in
      r <- Math_random ;;
      let split := min + r * (max - min) in
      let subset' :=
        if value < split
        then filter (fun x => x < split) subset
        else filter (fun x => x >= split) subset in
      isolationLoop remaining' value subset' (depth + 1)%Z
  | _, _ => ret depth
  end.

Definition isolationDepth (value : T) (data : list T) : M T T :=
  let maxDepth := Math_ceil (Math_log2 (len data)) in
  depth <- isolationLoop (Z.to_nat maxDepth) value data 0%Z ;;
  ret #depth.

Definition expectedIsolationDepth (n : T) : T :=
  if n <= #1 then #0
  else #2 * (Math_log (n - #1) + dec 5772156649 10000000000)
       - (#2 * (n - #1)) / n.

(** [for (let i = 0; i < numTrees; i++) depths.push(...)] *)
Fixpoint isolationTrees (numTrees : nat) (value : T) (data depths : list T)
  : M T (list T) :=
  match numTrees with
  | O => ret depths
  | S n =>
      depth <- isolationDepth value data ;;
      isolationTrees n value data (depths ++ [depth])
  end.

Definition isolationForest (value : T) (data : list T) (numTrees : nat)
  : M T (Verdict T) :=
  if (List.length data <? 10)%nat
  then ret {| ml_isAnomaly := false; ml_score := #0 |}
  else
    depths <- isolationTrees numTrees value data [] ;;
    let avgDepth := fold_left (fun a b => a + b) depths #0 / len depths in
    let expectedDepth := expectedIsolationDepth (len data) in
    let anomalyScore := Math_pow #2 (- avgDepth / expectedDepth) in
    ret {| ml_isAnomaly := anomalyScore > dec 6 10;
           ml_score := anomalyScore |}.

Record Neighbour := {
  nb_value : T;
  nb_distance : T;
  nb_index : nat
}.

(** [data.map((d, i) => ({value: d, distance: |d - value|, index: i}))] *)
Fixpoint neighbours (value : T) (data : list T) (i : nat) : list Neighbour :=
  match data with
  | [] => []
  | d :: data' =>
      {| nb_value := d; nb_distance := Math_abs (d - value); nb_index := i |}
      :: neighbours value data' (S i)
  end.

(** [k] is at least 1 wherever [lof] is called, so [distances] is not empty
    when its last element is read. *)
Definition lof (value : T) (data : list T) (k : nat) : Verdict T :=
  if (List.length data <? k + 1)%nat
  then {| ml_isAnomaly := false; ml_score := #0 |}
  else
    let distances :=
      firstn k (sort_by (fun a b => nb_distance a - nb_distance b)
                        (neighbours value data 0)) in
    let avgDistance :=
      fold_left (fun sum d => sum + nb_distance d) distances #0
      / #(Z.of_nat k) in
    let lofScore :=
      avgDistance
      / (last (map nb_distance distances) NaN + dec 1 10000) in
    {| ml_isAnomaly := lofScore > dec 15 10;
       ml_score := Math_min (lofScore / #2) #1 |}.

(** The default arguments [numTrees = 100] and [k = 5]. *)
Definition isolationForest_numTrees : nat := 100.
Definition lof_k : nat := 5.

End Detectors.
End MLDetectors.

(** ** TimeSeriesDetectors

    A window and a period count samples: they are natural numbers. *)

Module TimeSeriesDetectors.
Section Detectors.

Context {T : Type} `{Number T}.
Local Open Scope js_scope.

(** [a.slice(start, end)] *)
Definition slice {A} (a : list A) (start stop : nat) : list A :=
  firstn (Nat.min stop (List.length a) - start) (skipn start a).

(** [a.map((v, i) => f(v, i))] *)
Definition mapi {A B} (f : A -> nat -> B) (a : list A) : list B :=
  map (fun iv => f (snd iv) (fst iv)) (combine (seq 0 (List.length a)) a).

(** [for (let i = 0; i < data.length; i++) result.push(avg)], where
    [Math.floor(window / 2)] is [window / 2] and [Math.ceil(window / 2)] is
    [(window + 1) / 2]. *)
Definition movingAverage (data : list T) (window : nat) : list T :=
  map (fun i =>
         let start := Nat.max 0 (i - window / 2) in
         let stop := Nat.min (List.length data) (i + (window + 1) / 2) in
         let subset := slice data start stop in
         let avg := fold_left (fun a b => a + b) subset #0 / len subset in
         avg)
      (seq 0 (List.length data)).

(** [i % period], which is NaN for [period = 0] *)
Definition remainder (i period : nat) : option nat :=
  match period with
  | O => None
  | S _ => Some (i mod period)%nat
  end.

(** [cells[j] += x] at an index of [cells]; the index [i % period] is one. *)
Fixpoint add_at (cells : list T) (j : nat) (x : T) : list T :=
  match cells, j with
  | [], _ => []
  | c :: cells', O => (c + x) :: cells'
  | c :: cells', S j' => c :: add_at cells' j' x
  end.

(** [for (let i = 0; i < data.length; i++) cells[i % period] += amount_i];
    with [period = 0] the array is empty, the assignment makes a property
    named NaN and the array has no element afterwards either. *)
Fixpoint addEach (period : nat) (amounts : list T) (i : nat) (cells : list T)
  : list T :=
  match amounts with
  | [] => cells
  | x :: rest =>
      addEach period rest (S i)
              match remainder i period with
              | Some j => add_at cells j x
              | None => cells
              end
  end.

(** [c || d] on numbers: [0], [-0] and [NaN] are falsy. *)
Definition or_else (c d : T) : T :=
  if (c === #0) || negb (c === c) then d else c.

Definition extractSeasonality (data : list T) (period : nat) : list T :=
  let seasonal := addEach period data 0 (repeat #0 period) in
  let counts := addEach period (map (fun _ => #1) data) 0 (repeat #0 period) in
  mapi (fun s i => s / or_else (nth i counts NaN) #1) seasonal.

Record Decomposition := {
  stl_trend : list T;
  stl_seasonal : list T;
  stl_residual : list T
}.

Definition stl (dataPoints : list (DataPoint T)) (seasonality : nat)
  : Decomposition :=
  let values := map (@value T) dataPoints in
  let trend := movingAverage values seasonality in
  let detrended := mapi (fun v i => v - nth i trend NaN) values in
  let seasonal := extractSeasonality detrended seasonality in
  let residual :=
    mapi (fun v i =>
            v - nth i trend NaN
            - match remainder i seasonality with
              | Some j => nth j seasonal NaN
              | None => NaN
              end)
         values in
  {| stl_trend := trend; stl_seasonal := seasonal; stl_residual := residual |}.

(** The default argument [seasonality = 24]. *)
Definition stl_seasonality : nat := 24.

End Detectors.
End TimeSeriesDetectors.

(** ** The observability module

    [lib/observability/metrics]: the buffer of recorded metrics, the engine
    with its counters and gauges, and the tracer with its active spans.  A
    [Map] is an association list in insertion order.  [String.localeCompare]
    and [Number.toString(36)] belong to the runtime and are parameters; a
    tag value ([any]) has a type of its own. *)

Module Observability.

Inductive MetricType := Counter | Gauge | Histogram | Summary.

Inductive Strength := strong | moderate | weak.

Section Maps.

Variable A : Type.

(** [m.get(key)] *)
Fixpoint map_get (key : string) (m : list (string * A)) : option A :=
  match m with
  | [] => None
  | (k, x) :: m' => if String.eqb k key then Some x else map_get key m'
  end.

(** [m.set(key, v)]: a key that is present keeps its place. *)
Fixpoint map_set (key : string) (v : A) (m : list (string * A))
  : list (string * A) :=
  match m with
  | [] => [(key, v)]
  | (k, x) :: m' =>
      if String.eqb k key then (k, v) :: m' else (k, x) :: map_set key v m'
  end.

(** [m.delete(key)] *)
Definition map_delete (key : string) (m : list (string * A))
  : list (string * A) :=
  filter (fun kx => negb (String.eqb (fst kx) key)) m.

End Maps.

(** [s.includes(pattern)] *)
Fixpoint includes (pattern s : string) : bool :=
  String.prefix pattern s
  || match s with
     | EmptyString => false
     | String _ s' => includes pattern s'
     end.

Section Engine.

Context {T : Type} `{Number T}.
Variable localeCompare : string -> string -> Z.
Local Open Scope js_scope.

Record Metric := {
  metric_name : string;
  metric_value : T;
  metric_dimensions : list (string * string);
  metric_timestamp : Z;
  metric_type : MetricType
}.

(** *** MetricsBuffer *)

Definition maxSize : nat := 1000.

(** [flush]: an empty buffer is left alone; otherwise the buffer is emptied
    and its copy is logged.  The body has no [await]: it runs to its end when
    [add] calls it. *)
Definition flush (buffer : list Metric) : list Metric :=
  if (List.length buffer =? 0)%nat then buffer else [].

Definition add (metric : Metric) (buffer : list Metric) : list Metric :=
  let buffer := buffer ++ [metric] in
  if (maxSize <=? List.length buffer)%nat then flush buffer else buffer.

(** *** ObservabilityEngine *)

Record ObservabilityEngine := {
  buffer : list Metric;
  counters : list (string * T);
  gauges : list (string * T)
}.

(** [new ObservabilityEngine()] *)
Definition newEngine : ObservabilityEngine :=
  {| buffer := []; counters := []; gauges := [] |}.

(** [Object.entries(dimensions)] is the list of the dimensions. *)
Definition getMetricKey (name : string) (dimensions : list (string * string))
  : string :=
  let dimStr :=
    String.concat ","
      (map (fun kv => (fst kv ++ "=" ++ snd kv)%string)
           (sort_by (fun a b => #(localeCompare (fst a) (fst b))) dimensions)) in
  if (String.length dimStr =? 0)%nat then name
  else (name ++ "{" ++ dimStr ++ "}")%string.

Definition recordMetric (name : string) (value : T)
           (dimensions : list (string * string)) (type : MetricType)
           (this : ObservabilityEngine) : M T ObservabilityEngine :=
  now <- Date_now ;;
  let metric :=
    {| metric_name := name; metric_value := value;
       metric_dimensions := dimensions; metric_timestamp := now;
       metric_type := type |} in
  let buffer' := add metric (buffer this) in
  let key := getMetricKey name dimensions in
  ret match type with
      | Counter =>
          let current :=
            match map_get key (counters this) with
            | Some c => c
            | None => #0
            end in
          {| buffer := buffer';
             counters := map_set key (current + value) (counters this);
             gauges := gauges this |}
      | Gauge =>
          {| buffer := buffer';
             counters := counters this;
             gauges := map_set key value (gauges this) |}
      | _ =>
          {| buffer := buffer';
             counters := counters this;
             gauges := gauges this |}
      end.

Definition increment (name : string) (dimensions : list (string * string))
           (amount : T) (this : ObservabilityEngine) : M T ObservabilityEngine :=
  recordMetric name amount dimensions Counter this.

Definition gauge (name : string) (value : T)
           (dimensions : list (string * string)) (this : ObservabilityEngine)
  : M T ObservabilityEngine :=
  recordMetric name value dimensions Gauge this.

Definition histogram (name : string) (value : T)
           (dimensions : list (string * string)) (this : ObservabilityEngine)
  : M T ObservabilityEngine :=
  recordMetric name value dimensions Histogram this.

(** [this.gauges.get(key) ?? this.counters.get(key) ?? 0] *)
Definition getCurrentValue (name : string)
           (dimensions : list (string * string)) (this : ObservabilityEngine)
  : T :=
  let key := getMetricKey name dimensions in
  match map_get key (gauges this) with
  | Some g => g
  | None =>
      match map_get key (counters this) with
      | Some c => c
      | None => #0
      end
  end.

(** [query(params)] reads [params.name] and [params.dimensions ?? {}]. *)
Definition query (name : string)
           (dimensions : option (list (string * string)))
           (this : ObservabilityEngine) : T :=
  getCurrentValue name
                  match dimensions with
                  | Some d => d
                  | None => []
                  end
                  this.

Definition getMetrics (pattern : string) (this : ObservabilityEngine)
  : list (string * T) :=
  filter (fun kv => includes pattern (fst kv)) (gauges this)
  ++ filter (fun kv => includes pattern (fst kv)) (counters this).

(** [{bufferedMetrics, totalCounters, totalGauges}] *)
Definition getHealthMetrics (this : ObservabilityEngine) : nat * nat * nat :=
  (List.length (buffer this), List.length (counters this),
   List.length (gauges this)).

Record Correlation := {
  metric1 : string;
  metric2 : string;
  coefficient : T;
  strength : Strength
}.

Definition calculateCorrelation (m1 m2 : string) : T := #0.

Definition categorizeCorrelation (coefficient : T) : Strength :=
  let abs := Math_abs coefficient in
  if abs >= dec 7 10 then strong
  else if abs >= dec 4 10 then moderate
  else weak.

(** The two nested loops over [i < j] *)
Fixpoint correlationPairs (metrics : list string) : list Correlation :=
  match metrics with
  | [] => []
  | m :: rest =>
      map (fun m' =>
             let coefficient := calculateCorrelation m m' in
             {| metric1 := m; metric2 := m';
                coefficient := coefficient;
                strength := categorizeCorrelation coefficient |})
          rest
      ++ correlationPairs rest
  end.

Definition findCorrelations (metrics : list string) : list Correlation :=
  sort_by (fun a b => Math_abs (coefficient b) - Math_abs (coefficient a))
          (correlationPairs metrics).

End Engine.

Section Tracer.

Context {T : Type} `{Number T}.
Variable V : Type.
Variable toString36 : T -> string.

Record Span := {
  span_id : string;
  span_traceId : string;
  span_parentId : option string;
  span_operation : string;
  span_startTime : Z;
  span_endTime : option Z;
  span_duration : option Z;
  span_tags : list (string * V);
  span_logs : list (Z * string)
}.

Record DistributedTracer := {
  activeSpans : list (string * Span)
}.

(** [new DistributedTracer()] *)
Definition newTracer : DistributedTracer := {| activeSpans := [] |}.

(** [s.substring(2, 15)] takes thirteen characters from index 2. *)
Definition generateId : M T string :=
  r1 <- Math_random ;;
  r2 <- Math_random ;;
  ret (substring 2 13 (toString36 r1) ++ substring 2 13 (toString36 r2))%string.

Definition startSpan (operation : string) (traceId parentId : option string)
           (this : DistributedTracer) : M T (Span * DistributedTracer) :=
  id <- generateId ;;
  traceId' <- match traceId with
              | Some t => ret t
              | None => generateId
              end ;;
  now <- Date_now ;;
  let span :=
    {| span_id := id; span_traceId := traceId'; span_parentId := parentId;
       span_operation := operation; span_startTime := now;
       span_endTime := None; span_duration := None;
       span_tags := []; span_logs := [] |} in
  ret (span, {| activeSpans := map_set id span (activeSpans this) |}).

Definition endSpan (spanId : string) (this : DistributedTracer)
  : M T (option Span * DistributedTracer) :=
  match map_get spanId (activeSpans this) with
  | None => ret (None, this)
  | Some span =>
      now <- Date_now ;;
      let span' :=
        {| span_id := span_id span; span_traceId := span_traceId span;
           span_parentId := span_parentId span;
           span_operation := span_operation span;
           span_startTime := span_startTime span;
           span_endTime := Some now;
           span_duration := Some (now - span_startTime span)%Z;
           span_tags := span_tags span; span_logs := span_logs span |} in
      ret (Some span',
           {| activeSpans := map_delete spanId (activeSpans this) |})
  end.

Definition annotate (spanId key : string) (value : V)
           (this : DistributedTracer) : DistributedTracer :=
  match map_get spanId (activeSpans this) with
  | None => this
  | Some span =>
      let span' :=
        {| span_id := span_id span; span_traceId := span_traceId span;
           span_parentId := span_parentId span;
           span_operation := span_operation span;
           span_startTime := span_startTime span;
           span_endTime := span_endTime span;
           span_duration := span_duration span;
           span_tags := map_set key value (span_tags span);
           span_logs := span_logs span |} in
      {| activeSpans := map_set spanId span' (activeSpans this) |}
  end.

Definition log (spanId message : string) (this : DistributedTracer)
  : M T DistributedTracer :=
  match map_get spanId (activeSpans this) with
  | None => ret this
  | Some span =>
      now <- Date_now ;;
      let span' :=
        {| span_id := span_id span; span_traceId := span_traceId span;
           span_parentId := span_parentId span;
           span_operation := span_operation span;
           span_startTime := span_startTime span;
           span_endTime := span_endTime span;
           span_duration := span_duration span;
           span_tags := span_tags span;
           span_logs := span_logs span ++ [(now, message)] |} in
      ret {| activeSpans := map_set spanId span' (activeSpans this) |}
  end.

End Tracer.

End Observability.

(** ** The observability collaborators

    [tracer] and [observability] keep spans and metrics of their own; of what
    they do, only the reads of the world can reach the detector.
    [startSpan] draws two identifiers (two random numbers each) and reads the
    clock, [endSpan] reads the clock, every recorded metric is stamped with
    [new Date()], and [annotate] reads nothing. *)

Definition tracer_startSpan {T} : M T unit :=
  Math_random ;;; Math_random ;;; Math_random ;;; Math_random ;;;
  Date_now ;;; ret tt.

Definition tracer_endSpan {T} : M T unit := Date_now ;;; ret tt.

Definition observability_histogram {T} : M T unit := Date_now ;;; ret tt.

Definition observability_increment {T} : M T unit := Date_now ;;; ret tt.

(** ** EnterpriseAnomalyDetector *)

(** The instance: its configuration, the performance table
    ([Map<string, PerformanceMetrics>]) and the model version. *)
Record EnterpriseAnomalyDetector (T : Type) := {
  this_config : AdvancedDetectorConfig;
  this_performance : string -> option (PerformanceMetrics T);
  this_modelVersion : string
}.

(** [Pick<AnomalyResult, 'isAnomaly' | 'confidence' | 'severity' | 'score' |
    'algorithms'>] *)
Record Vote (T : Type) := {
  vote_isAnomaly : bool;
  vote_confidence : T;
  vote_severity : Severity;
  vote_score : T;
  vote_algorithms : list (AlgorithmResult T)
}.

Definition defaultConfig : AdvancedDetectorConfig := {|
  algorithms := ["ensemble"%string];
  sensitivity := medium;
  contextWindow := 168;
  seasonalityPeriods := [24%Z; 168%Z];
  adaptiveLearning := true;
  ensembleWeighting := by_adaptive;
  minDataPoints := 30
|}.

(** [new EnterpriseAnomalyDetector(config)], with the configuration already
    merged over the defaults; the performance table starts empty. *)
Definition newDetector (T : Type) (config : AdvancedDetectorConfig)
  : EnterpriseAnomalyDetector T := {|
  this_config := config;
  this_performance := fun _ => None;
  this_modelVersion := "1.0.0"
|}.

(** [export const detector = new EnterpriseAnomalyDetector()] *)
Definition detector (T : Type) : EnterpriseAnomalyDetector T :=
  newDetector T defaultConfig.

Section Engine.

Context {T : Type} `{Number T}.
Variable this : EnterpriseAnomalyDetector T.
Local Open Scope js_scope.

Definition shouldRunAlgorithm (algorithm : string) : bool :=
  existsb (String.eqb "ensemble") (algorithms (this_config this))
  || existsb (String.eqb algorithm) (algorithms (this_config this)).

Definition calculateAlgorithmWeights (results : list (AlgorithmResult T))
  : list T :=
  match ensembleWeighting (this_config this) with
  | by_performance =>
      map (fun r =>
             match this_performance this (alg_name r) with
             | Some perf => f1Score perf
             | None => #1
             end) results
  | by_confidence => map (fun r => alg_score r + dec 1 10) results
  | by_adaptive => map (fun _ => #1) results
  end.

Definition getThreshold : T :=
  match sensitivity (this_config this) with
  | low => dec 7 10
  | medium => dec 6 10
  | high => dec 5 10
  | adaptive => dec 6 10
  end.

Definition getSensitivityThreshold : T :=
  match sensitivity (this_config this) with
  | low => #4
  | medium => #3
  | high => #2
  | adaptive => #3
  end.

Definition determineSeverity (score confidence : T) : Severity :=
  let combinedScore := score * confidence in
  if combinedScore > dec 8 10 then critical
  else if combinedScore > dec 6 10 then warning
  else info.

Definition createNonAnomalyResult (dataPoint : DataPoint T) (reason : string)
           (processingTime : Z) : AnomalyResult T := {|
  isAnomaly := false;
  confidence := #0;
  severity := info;
  score := #0;
  result_algorithms := [];
  explanation := {|
    reason := reason;
    expectedRange := (#0, #0);
    actualValue := value dataPoint;
    historicalContext := reason;
    seasonalPattern := None;
    deviation := #0
  |};
  metadata := {|
    processingTimeMs := processingTime;
    dataPointsAnalyzed := 0;
    modelVersion := this_modelVersion this;
    algorithm := "none"
  |}
|}.

(** [results.forEach((result, i) => { weightedScore += result.score *
    weights[i]; totalWeight += weights[i] })] *)
Definition accumulate (acc : T * T) (rw : AlgorithmResult T * T) : T * T :=
  (fst acc + alg_score (fst rw) * snd rw, snd acc + snd rw).

Definition ensembleVote (results : list (AlgorithmResult T)) : Vote T :=
  match results with
  | [] =>
      {| vote_isAnomaly := false; vote_confidence := #0;
         vote_severity := info; vote_score := #0; vote_algorithms := [] |}
  | _ :: _ =>
      let weights := calculateAlgorithmWeights results in
      let totals := fold_left accumulate (combine results weights) (#0, #0) in
      let weightedScore := fst totals in
      let totalWeight := snd totals in
      let normalizedScore := weightedScore / totalWeight in
      let threshold := getThreshold in
      let isAnomaly := normalizedScore > threshold in
      let agreement := len (filter (@alg_isAnomaly T) results) / len results in
      let confidence :=
        if isAnomaly then agreement * normalizedScore
        else (#1 - agreement) * (#1 - normalizedScore) in
      let severity := determineSeverity normalizedScore confidence in
      let algorithmsWithContribution :=
        map (fun rw : AlgorithmResult T * T =>
               {| alg_name := alg_name (fst rw);
                  alg_score := alg_score (fst rw);
                  alg_isAnomaly := alg_isAnomaly (fst rw);
                  alg_contribution :=
                    (alg_score (fst rw) * snd rw) / weightedScore;
                  alg_executionTime := alg_executionTime (fst rw) |})
            (combine results weights) in
      {| vote_isAnomaly := isAnomaly;
         vote_confidence := confidence;
         vote_severity := severity;
         vote_score := normalizedScore;
         vote_algorithms := algorithmsWithContribution |}
  end.

Definition runZScore (value : T) (data : list T) : M T (AlgorithmResult T) :=
  start <- Date_now ;;
  let threshold := getSensitivityThreshold in
  let result := StatisticalDetectors.zScore value data threshold in
  stop <- Date_now ;;
  ret {| alg_name := "zscore";
         alg_score := dev_score result;
         alg_isAnomaly := dev_isAnomaly result;
         alg_contribution := #0;
         alg_executionTime := (stop - start)%Z |}.

Definition runMAD (value : T) (data : list T) : M T (AlgorithmResult T) :=
  start <- Date_now ;;
  let result :=
    StatisticalDetectors.mad value data StatisticalDetectors.mad_threshold in
  stop <- Date_now ;;
  ret {| alg_name := "mad";
         alg_score := dev_score result;
         alg_isAnomaly := dev_isAnomaly result;
         alg_contribution := #0;
         alg_executionTime := (stop - start)%Z |}.

Definition runIQR (value : T) (data : list T) : M T (AlgorithmResult T) :=
  start <- Date_now ;;
  let result :=
    StatisticalDetectors.iqr value data StatisticalDetectors.iqr_multiplier in
  stop <- Date_now ;;
  ret {| alg_name := "iqr";
         alg_score := rng_score result;
         alg_isAnomaly := rng_isAnomaly result;
         alg_contribution := #0;
         alg_executionTime := (stop - start)%Z |}.

Definition runIsolationForest (value : T) (data : list T)
  : M T (AlgorithmResult T) :=
  start <- Date_now ;;
  result <- MLDetectors.isolationForest value data
              MLDetectors.isolationForest_numTrees ;;
  stop <- Date_now ;;
  ret {| alg_name := "isolation-forest";
         alg_score := ml_score result;
         alg_isAnomaly := ml_isAnomaly result;
         alg_contribution := #0;
         alg_executionTime := (stop - start)%Z |}.

Definition runLOF (value : T) (data : list T) : M T (AlgorithmResult T) :=
  start <- Date_now ;;
  let result := MLDetectors.lof value data MLDetectors.lof_k in
  stop <- Date_now ;;
  ret {| alg_name := "lof";
         alg_score := ml_score result;
         alg_isAnomaly := ml_isAnomaly result;
         alg_contribution := #0;
         alg_executionTime := (stop - start)%Z |}.

(** [sorted[0]] and [sorted[sorted.length - 1]] are [undefined] for an
    empty array, and [undefined.toFixed(2)] throws a [TypeError]. *)
Definition generateExplanation (value : T) (data : list T)
           (result_isAnomaly : bool) : Result (Explanation T) :=
  let mean := fold_left (fun a b => a + b) data #0 / len data in
  let stdDev :=
    Math_sqrt
      (fold_left (fun a b => a + Math_pow (b - mean) #2) data #0 / len data) in
  let deviation := if stdDev > #0 then (value - mean) / stdDev else #0 in
  let sorted := sort_by (fun a b => a - b) data in
  let min := nth_error sorted 0 in
  let max := nth_error sorted (List.length sorted - 1) in
  let expectedRange := (mean - #2 * stdDev, mean + #2 * stdDev) in
  let reason0 :=
    if result_isAnomaly
    then ("Value " ++ toFixed value 2
          ++ " is significantly different from historical patterns.")%string
    else ("Value " ++ toFixed value 2 ++ " is within normal range.")%string in
  let reason :=
    if result_isAnomaly
    then
      if value > mean
      then (reason0 ++ " It is " ++ toFixed deviation 1
            ++ "σ above the mean.")%string
      else (reason0 ++ " It is " ++ toFixed (Math_abs deviation) 1
            ++ "σ below the mean.")%string
    else reason0 in
  match min, max with
  | Some min, Some max =>
      let historicalContext :=
        ("Based on " ++ string_of_Z (Z.of_nat (List.length data))
         ++ " historical data points. "
         ++ "Mean: " ++ toFixed mean 2 ++ ", StdDev: " ++ toFixed stdDev 2
         ++ ", "
         ++ "Range: [" ++ toFixed min 2 ++ ", " ++ toFixed max 2 ++ "]")%string in
      Ok {| reason := reason;
            expectedRange := expectedRange;
            actualValue := value;
            historicalContext := historicalContext;
            seasonalPattern := None;
            deviation := Math_abs deviation |}
  | _, _ =>
      Throw (TypeError "Cannot read properties of undefined (reading 'toFixed')")
  end.

(** [if (this.shouldRunAlgorithm(name)) algorithmResults.push(await run)] *)
Definition pushIf (name : string) (run : M T (AlgorithmResult T))
           (algorithmResults : list (AlgorithmResult T))
  : M T (list (AlgorithmResult T)) :=
  if shouldRunAlgorithm name
  then result <- run ;; ret (algorithmResults ++ [result])
  else ret algorithmResults.

Definition detect (dataPoint : DataPoint T) (historicalData : list (DataPoint T))
  : M T (Result (AnomalyResult T)) :=
  tracer_startSpan ;;;
  startTime <- Date_now ;;
  if (Z.of_nat (List.length historicalData) <? minDataPoints (this_config this))%Z
  then
    now <- Date_now ;;
    ret (Ok (createNonAnomalyResult dataPoint "Insufficient historical data"
               (now - startTime)%Z))
  else
    let values := map (@value T) historicalData in
    let currentValue := value dataPoint in
    let algorithmResults := [] in
    algorithmResults <- pushIf "zscore" (runZScore currentValue values)
                               algorithmResults ;;
    algorithmResults <- pushIf "mad" (runMAD currentValue values)
                               algorithmResults ;;
    algorithmResults <- pushIf "iqr" (runIQR currentValue values)
                               algorithmResults ;;
    algorithmResults <- pushIf "isolation-forest"
                               (runIsolationForest currentValue values)
                               algorithmResults ;;
    algorithmResults <- pushIf "lof" (runLOF currentValue values)
                               algorithmResults ;;
    let ensembleResult := ensembleVote algorithmResults in
    match generateExplanation currentValue values
                              (vote_isAnomaly ensembleResult) with
    | Throw error => tracer_endSpan ;;; ret (Throw error)
    | Ok explanation =>
        now <- Date_now ;;
        let processingTime := (now - startTime)%Z in
        observability_histogram ;;;
        observability_increment ;;;
        (if vote_isAnomaly ensembleResult
         then observability_increment else ret tt) ;;;
        tracer_endSpan ;;;
        ret (Ok {| isAnomaly := vote_isAnomaly ensembleResult;
                   confidence := vote_confidence ensembleResult;
                   severity := vote_severity ensembleResult;
                   score := vote_score ensembleResult;
                   result_algorithms := vote_algorithms ensembleResult;
                   explanation := explanation;
                   metadata := {|
                     processingTimeMs := processingTime;
                     dataPointsAnalyzed :=
                       Z.of_nat (List.length historicalData);
                     modelVersion := this_modelVersion this;
                     algorithm := "ensemble"
                   |} |})
    end.

End Engine.

(** ** [detect] and its collaborators

    The same function, together with what it does to [tracer] and
    [observability]: the span it starts, annotates and ends, and the three
    metrics it records.  The tags it sets are a boolean and the caught
    error. *)

Inductive TagValue :=
| TagBoolean (b : bool)
| TagError (e : JsError).

Record Collaborators (T : Type) := {
  tracer : Observability.DistributedTracer TagValue;
  observability : @Observability.ObservabilityEngine T
}.

Section ObservedEngine.

Context {T : Type} `{Number T}.
Variable this : EnterpriseAnomalyDetector T.
Variable localeCompare : string -> string -> Z.
Variable toString36 : T -> string.
Local Open Scope js_scope.

Definition detectObserved (c : Collaborators T) (dataPoint : DataPoint T)
           (historicalData : list (DataPoint T))
  : M T (Result (AnomalyResult T) * Collaborators T) :=
  started <- Observability.startSpan toString36 "anomaly_detection" None None
                                     (tracer c) ;;
  let span := fst started in
  let tracer1 := snd started in
  startTime <- Date_now ;;
  if (Z.of_nat (List.length historicalData) <? minDataPoints (this_config this))%Z
  then
    let tracer2 :=
      Observability.annotate (Observability.span_id span) "insufficient_data"
                             (TagBoolean true) tracer1 in
    now <- Date_now ;;
    ret (Ok (createNonAnomalyResult this dataPoint
               "Insufficient historical data" (now - startTime)%Z),
         {| tracer := tracer2; observability := observability c |})
  else
    let values := map (@value T) historicalData in
    let currentValue := value dataPoint in
    let algorithmResults := [] in
    algorithmResults <- pushIf this "zscore" (runZScore this currentValue values)
                               algorithmResults ;;
    algorithmResults <- pushIf this "mad" (runMAD currentValue values)
                               algorithmResults ;;
    algorithmResults <- pushIf this "iqr" (runIQR currentValue values)
                               algorithmResults ;;
    algorithmResults <- pushIf this "isolation-forest"
                               (runIsolationForest currentValue values)
                               algorithmResults ;;
    algorithmResults <- pushIf this "lof" (runLOF currentValue values)
                               algorithmResults ;;
    let ensembleResult := ensembleVote this algorithmResults in
    match generateExplanation currentValue values
                              (vote_isAnomaly ensembleResult) with
    | Throw error =>
        let tracer2 :=
          Observability.annotate (Observability.span_id span) "error"
                                 (TagError error) tracer1 in
        ended <- Observability.endSpan (Observability.span_id span) tracer2 ;;
        ret (Throw error,
             {| tracer := snd ended; observability := observability c |})
    | Ok explanation =>
        now <- Date_now ;;
        let processingTime := (now - startTime)%Z in
        observability1 <-
          Observability.histogram localeCompare "anomaly.detection.duration"
                                  #processingTime [] (observability c) ;;
        observability2 <-
          Observability.increment localeCompare "anomaly.detection.total"
                                  [] #1 observability1 ;;
        observability3 <-
          (if vote_isAnomaly ensembleResult
           then Observability.increment localeCompare
                                        "anomaly.detection.anomalies"
                                        [] #1 observability2
           else ret observability2) ;;
        ended <- Observability.endSpan (Observability.span_id span) tracer1 ;;
        ret (Ok {| isAnomaly := vote_isAnomaly ensembleResult;
                   confidence := vote_confidence ensembleResult;
                   severity := vote_severity ensembleResult;
                   score := vote_score ensembleResult;
                   result_algorithms := vote_algorithms ensembleResult;
                   explanation := explanation;
                   metadata := {|
                     processingTimeMs := processingTime;
                     dataPointsAnalyzed :=
                       Z.of_nat (List.length historicalData);
                     modelVersion := this_modelVersion this;
                     algorithm := "ensemble"
                   |} |},
             {| tracer := snd ended; observability := observability3 |})
    end.

End ObservedEngine.

Unset Implicit Arguments.

(** ** Sample inputs *)

Definition reading {T} (v : T) : DataPoint T :=
  {| timestamp := 0; value := v; metric := "latency"; dimensions := None |}.

(** A world whose random numbers run through [0, 1) and whose clock ticks
    once per reading. *)
Definition sampleWorld : World float := {|
  randoms := fun n => (F64.of_Z ((Z.of_nat n * 7919) mod 1000) / 1000)%float;
  clock := fun n => (1000 + Z.of_nat n)%Z
|}.

Definition configOf (names : list string) (minimum : Z) : AdvancedDetectorConfig := {|
  algorithms := names;
  sensitivity := medium;
  contextWindow := 168;
  seasonalityPeriods := [24%Z; 168%Z];
  adaptiveLearning := true;
  ensembleWeighting := by_adaptive;
  minDataPoints := minimum
|}.

(** The same at another sensitivity *)
Definition configAt (level : Sensitivity) (names : list string) (minimum : Z)
  : AdvancedDetectorConfig := {|
  algorithms := names;
  sensitivity := level;
  contextWindow := 168;
  seasonalityPeriods := [24%Z; 168%Z];
  adaptiveLearning := true;
  ensembleWeighting := by_adaptive;
  minDataPoints := minimum
|}.

(** ** Vocabulary of the statements *)

Section Vocabulary.

Context {T : Type} `{Number T}.
Variable this : EnterpriseAnomalyDetector T.
Local Open Scope js_scope.

(** [Σ score_i * weight_i], the sum the vote divides *)
Definition weightedSum (results : list (AlgorithmResult T)) : T :=
  sum (map (fun rw => alg_score (fst rw) * snd rw)
           (combine results (calculateAlgorithmWeights this results))).

(** What a detector reports, without its timing *)
Definition verdictOf (r : AlgorithmResult T) : string * T * bool :=
  (alg_name r, alg_score r, alg_isAnomaly r).

(** The five conditional runs of [detect], in its order *)
Definition runConfigured (currentValue : T) (values : list T)
  : M T (list (AlgorithmResult T)) :=
  a <- pushIf this "zscore" (runZScore this currentValue values) [] ;;
  a <- pushIf this "mad" (runMAD currentValue values) a ;;
  a <- pushIf this "iqr" (runIQR currentValue values) a ;;
  a <- pushIf this "isolation-forest"
              (runIsolationForest currentValue values) a ;;
  a <- pushIf this "lof" (runLOF currentValue values) a ;;
  ret a.

(** The result [detect] assembles from a vote and an explanation *)
Definition assemble (historicalData : list (DataPoint T)) (vote : Vote T)
           (explanation : Explanation T) (processingTime : Z)
  : AnomalyResult T := {|
  isAnomaly := vote_isAnomaly vote;
  confidence := vote_confidence vote;
  severity := vote_severity vote;
  score := vote_score vote;
  result_algorithms := vote_algorithms vote;
  explanation := explanation;
  metadata := {|
    processingTimeMs := processingTime;
    dataPointsAnalyzed := Z.of_nat (List.length historicalData);
    modelVersion := this_modelVersion this;
    algorithm := "ensemble"
  |}
|}.

Definition zscoreVerdict (v : T) (d : list T) : string * T * bool :=
  let r := StatisticalDetectors.zScore v d (getSensitivityThreshold this) in
  ("zscore"%string, dev_score r, dev_isAnomaly r).

Definition madVerdict (v : T) (d : list T) : string * T * bool :=
  let r := StatisticalDetectors.mad v d StatisticalDetectors.mad_threshold in
  ("mad"%string, dev_score r, dev_isAnomaly r).

Definition iqrVerdict (v : T) (d : list T) : string * T * bool :=
  let r := StatisticalDetectors.iqr v d StatisticalDetectors.iqr_multiplier in
  ("iqr"%string, rng_score r, rng_isAnomaly r).

Definition lofVerdict (v : T) (d : list T) : string * T * bool :=
  let r := MLDetectors.lof v d MLDetectors.lof_k in
  ("lof"%string, ml_score r, ml_isAnomaly r).

Definition forestVerdict (v : T) (d : list T) (w : World T) : string * T * bool :=
  let r := fst (MLDetectors.isolationForest v d
                  MLDetectors.isolationForest_numTrees w) in
  ("isolation-forest"%string, ml_score r, ml_isAnomaly r).

Definition when {A} (b : bool) (x : A) : list A := if b then [x] else [].

(** The mean and the population standard deviation of an array *)
Definition mean (data : list T) : T := sum data / len data.

Definition populationStdDev (data : list T) : T :=
  Math_sqrt (sum (map (fun x => Math_pow (x - mean data) #2) data) / len data).

(** What [mad] divides by.  It applies [median] to the absolute deviations
    in the order of [data]; [median] reads the middle of the array it is
    given and [mad] does not sort the deviations, so this is the middle
    deviation of the unsorted array. *)
Definition middleDeviation (data : list T) : T :=
  let m := StatisticalDetectors.median (sort_by (fun a b => a - b) data) in
  StatisticalDetectors.median (map (fun x => Math_abs (x - m)) data).

(** The median absolute deviation: the median of the sorted absolute
    deviations from the median *)
Definition medianAbsoluteDeviation (data : list T) : T :=
  let m := StatisticalDetectors.median (sort_by (fun a b => a - b) data) in
  StatisticalDetectors.median
    (sort_by (fun a b => a - b) (map (fun x => Math_abs (x - m)) data)).

End Vocabulary.

(** The fields that two runs are compared on: the flag, the score, the
    confidence, the severity and the explanation; or the exception. *)
Definition sameVerdict {T} (r1 r2 : Result (AnomalyResult T)) : Prop :=
  match r1, r2 with
  | Ok a, Ok b =>
      isAnomaly a = isAnomaly b
      /\ score a = score b
      /\ confidence a = confidence b
      /\ severity a = severity b
      /\ explanation a = explanation b
  | Throw e1, Throw e2 => e1 = e2
  | _, _ => False
  end.

(** The names of the declaration's union type *)
Definition declaredAlgorithms : list string :=
  ["zscore"; "mad"; "iqr"; "gesd"; "isolation-forest"; "lof"; "stl"; "ensemble"]%string.

(** The configuration lists a name that is none of them. *)
Definition namesUnknownAlgorithm (config : AdvancedDetectorConfig) : bool :=
  existsb (fun a => negb (existsb (String.eqb a) declaredAlgorithms))
          (algorithms config).

(** The detectors the coordinator can run *)
Definition implementedAlgorithms : list string :=
  ["zscore"; "mad"; "iqr"; "isolation-forest"; "lof"]%string.

(** [Math.random()] returns a number of [0, 1). *)
Definition unitInterval (x : float) : bool :=
  PrimFloat.leb 0 x && PrimFloat.ltb x 1.

Definition randomsInRange (w : World float) : Prop :=
  forall n, unitInterval (randoms w n) = true.

(** Thirty readings of 100 *)
Definition hundreds : list float := Eval vm_compute in repeat 100%float 30.

(** The forest's verdict on the constant history, read off the sample
    world *)
Definition forestOnHundreds : Verdict float :=
  Eval vm_compute in
    fst (MLDetectors.isolationForest 1000%float hundreds
           MLDetectors.isolationForest_numTrees sampleWorld).

(** What the five detectors report on the constant history *)
Definition verdictsOnHundreds : list (string * float * bool) :=
  Eval vm_compute in
    map verdictOf (fst (runConfigured (detector float) 1000%float hundreds sampleWorld)).

(** Twenty-nine readings of 0 and one of 100 *)
Definition spikeHistory : list float :=
  Eval vm_compute in (repeat 0%float 29 ++ [100%float])%list.

(** The readings 1 to 10 (mean 5.5, population deviation 2.87) *)
Definition oneToTen : list float := [1; 2; 3; 4; 5; 6; 7; 8; 9; 10]%float.

(** Four readings of 1 around one of 5: the absolute deviations from the
    median 1 are 0, 0, 4, 0, 0 in the order of the data *)
Definition onesAndFive : list float := [1; 1; 5; 1; 1]%float.

(** The reading -0 before eleven readings of 100 *)
Definition zeroAmongHundreds : list float :=
  Eval vm_compute in ((-0)%float :: repeat 100%float 11).

(** One detector result with score 0 *)
Definition zeroResult : AlgorithmResult float :=
  {| alg_name := "zscore"; alg_score := 0%float; alg_isAnomaly := false;
     alg_contribution := 0%float; alg_executionTime := 0 |}.

(** The collaborators before any call: no span, no metric *)
Definition idle {T} : Collaborators T :=
  {| tracer := Observability.newTracer TagValue;
     observability := Observability.newEngine |}.

(** The same detector with another list of algorithm names *)
Definition withAlgorithms {T} (this : EnterpriseAnomalyDetector T)
           (names : list string) : EnterpriseAnomalyDetector T := {|
  this_config := {|
    algorithms := names;
    sensitivity := sensitivity (this_config this);
    contextWindow := contextWindow (this_config this);
    seasonalityPeriods := seasonalityPeriods (this_config this);
    adaptiveLearning := adaptiveLearning (this_config this);
    ensembleWeighting := ensembleWeighting (this_config this);
    minDataPoints := minDataPoints (this_config this)
  |};
  this_performance := this_performance this;
  this_modelVersion := this_modelVersion this
|}.

(** A result [H : ... = Ok r] of [detect] past the length check went through
    an explanation that was returned, not thrown. *)
Ltac explained H :=
  match type of H with
  | context [generateExplanation ?v ?d ?b] =>
      let e := fresh "explanation" in
      let He := fresh "Hexplanation" in
      destruct (generateExplanation v d b) as [e|] eqn:He; [|discriminate H]
  end.

(** * Properties *)

(** The decimal literals of the source, as binary64 reads them. *)
Example literals_binary64 :
  (dec 6745 10000 = 0.6745 /\ dec 35 10 = 3.5 /\ dec 15 10 = 1.5
   /\ dec 1 10000 = 0.0001 /\ dec 5772156649 10000000000 = 0.5772156649
   /\ dec 1 10 = 0.1 /\ dec 5 10 = 0.5 /\ dec 6 10 = 0.6 /\ dec 7 10 = 0.7
   /\ dec 8 10 = 0.8)%float.
Proof. repeat split; reflexivity. Qed.

(** ** Facts about arrays and the monad *)

Section ArrayFacts.

Context {T : Type} `{Number T}.
Local Open Scope js_scope.

Lemma length_insert_by {A} (cmp : A -> A -> T) (x : A) (l : list A) :
  List.length (insert_by cmp x l) = S (List.length l).
Proof.
  induction l as [|y l IH]; simpl; [reflexivity|].
  destruct (cmp x y > #0); simpl; [now rewrite IH | reflexivity].
Qed.

Lemma length_sort_by {A} (cmp : A -> A -> T) (l : list A) :
  List.length (sort_by cmp l) = List.length l.
Proof.
  induction l as [|x l IH]; simpl; [reflexivity|].
  fold (sort_by cmp l). now rewrite length_insert_by, IH.
Qed.

Lemma sort_by_nonempty {A} (cmp : A -> A -> T) (l : list A) :
  l <> [] -> sort_by cmp l <> [].
Proof.
  intros Hl Hs. apply (f_equal (@List.length A)) in Hs.
  rewrite length_sort_by in Hs. destruct l; [congruence | discriminate].
Qed.

(** Summing the images is the fold the source writes. *)
Lemma fold_left_map_add {A} (f : A -> T) (l : list A) (a : T) :
  fold_left (fun acc x => acc + f x) l a = fold_left (fun a b => a + b) (map f l) a.
Proof. revert a; induction l as [|x l IH]; intro a; simpl; [reflexivity | apply IH]. Qed.

Lemma map_snd_combine {A B} (l : list A) (l' : list B) :
  List.length l = List.length l' -> map snd (combine l l') = l'.
Proof.
  revert l'; induction l as [|a l IH]; intros [|b l'] Hlen; simpl in *;
    try discriminate; [reflexivity|].
  f_equal. apply IH. congruence.
Qed.

End ArrayFacts.

(** ** The ensemble vote *)

Section VoteFacts.

Context {T : Type} `{Number T}.
Variable this : EnterpriseAnomalyDetector T.
Local Open Scope js_scope.

Lemma length_calculateAlgorithmWeights (results : list (AlgorithmResult T)) :
  List.length (calculateAlgorithmWeights this results) = List.length results.
Proof.
  unfold calculateAlgorithmWeights.
  destruct (ensembleWeighting (this_config this)); apply length_map.
Qed.

(** The two running totals of the [forEach] are two sums. *)
Lemma fold_left_accumulate (rws : list (AlgorithmResult T * T)) (acc : T * T) :
  fold_left accumulate rws acc
  = (fold_left (fun a b => a + b)
               (map (fun rw => alg_score (fst rw) * snd rw) rws) (fst acc),
     fold_left (fun a b => a + b) (map snd rws) (snd acc)).
Proof.
  revert acc; induction rws as [|rw rws IH]; intros [a b]; simpl;
    [reflexivity|].
  rewrite IH. reflexivity.
Qed.

Lemma ensembleVote_score (r : AlgorithmResult T) (rest : list (AlgorithmResult T)) :
  vote_score (ensembleVote this (r :: rest))
  = weightedSum this (r :: rest) / sum (calculateAlgorithmWeights this (r :: rest)).
Proof.
  unfold ensembleVote, weightedSum, sum.
  cbv beta iota zeta. unfold vote_score.
  rewrite fold_left_accumulate. cbn [fst snd].
  rewrite map_snd_combine;
    [reflexivity | now rewrite length_calculateAlgorithmWeights].
Qed.

Lemma ensembleVote_contributions (r : AlgorithmResult T) (rest : list (AlgorithmResult T)) :
  map (@alg_contribution T) (vote_algorithms (ensembleVote this (r :: rest)))
  = map (fun rw => (alg_score (fst rw) * snd rw) / weightedSum this (r :: rest))
        (combine (r :: rest) (calculateAlgorithmWeights this (r :: rest))).
Proof.
  unfold ensembleVote, weightedSum, sum.
  cbv beta iota zeta. unfold vote_algorithms.
  rewrite fold_left_accumulate. cbn [fst snd].
  rewrite map_map. reflexivity.
Qed.

End VoteFacts.

(** C3: for a non-empty list of detector results the ensemble score is
    [Σ score_i * weight_i / Σ weight_i], the verdict is [score > threshold]
    with threshold 0.7, 0.6, 0.5, 0.6 for low, medium, high and adaptive
    sensitivity, and the confidence is [agreement * score] for an anomaly and
    [(1 - agreement) * (1 - score)] otherwise, [agreement] being the share of
    detectors that report an anomaly.  With no detector result the verdict is
    non-anomaly with score 0.  It holds in every arithmetic, binary64
    included, with the sums taken from left to right. *)
Theorem ensembleVote_verdict :
  forall (T : Type) (N : Number T) (this : EnterpriseAnomalyDetector T)
         (r : AlgorithmResult T) (rest : list (AlgorithmResult T)),
    let results := r :: rest in
    let weights := calculateAlgorithmWeights this results in
    let verdict := ensembleVote this results in
    let threshold :=
      match sensitivity (this_config this) with
      | low => dec 7 10
      | medium => dec 6 10
      | high => dec 5 10
      | adaptive => dec 6 10
      end in
    let agreement :=
      (len (filter (@alg_isAnomaly T) results) / len results)%js in
    (vote_score verdict
     = sum (map (fun rw => alg_score (fst rw) * snd rw)
                (combine results weights)) / sum weights
     /\ vote_isAnomaly verdict = (vote_score verdict > threshold)
     /\ vote_confidence verdict
        = (if vote_isAnomaly verdict then agreement * vote_score verdict
           else (#1 - agreement) * (#1 - vote_score verdict))
     /\ vote_isAnomaly (ensembleVote this []) = false
     /\ vote_score (ensembleVote this []) = #0)%js.
Proof.
  intros T N this r rest results weights verdict threshold agreement.
  split; [apply ensembleVote_score|].
  split; [|split; [|split; reflexivity]].
  - unfold verdict, threshold, ensembleVote, getThreshold; cbn [vote_isAnomaly vote_score].
    destruct (sensitivity (this_config this)); reflexivity.
  - reflexivity.
Qed.

(** ** The shape of a detection *)

Section DetectFacts.

Context {T : Type} `{Number T}.
Variable this : EnterpriseAnomalyDetector T.
Local Open Scope js_scope.

Lemma detect_short (dataPoint : DataPoint T) (historicalData : list (DataPoint T))
      (w : World T) :
  (Z.of_nat (List.length historicalData) <? minDataPoints (this_config this))%Z = true ->
  exists processingTime,
    fst (detect this dataPoint historicalData w)
    = Ok (createNonAnomalyResult this dataPoint "Insufficient historical data"
            processingTime).
Proof.
  intro Hshort. unfold detect, bind. cbn [fst snd]. rewrite Hshort.
  eexists. reflexivity.
Qed.

Lemma detect_long (dataPoint : DataPoint T) (historicalData : list (DataPoint T))
      (w : World T) :
  (Z.of_nat (List.length historicalData) <? minDataPoints (this_config this))%Z = false ->
  exists (w1 : World T) (processingTime : Z),
    (forall n, randoms w1 n = randoms w (4 + n)%nat)
    /\ let values := map (@value T) historicalData in
       let vote := ensembleVote this (fst (runConfigured this (value dataPoint) values w1)) in
       fst (detect this dataPoint historicalData w)
       = match generateExplanation (value dataPoint) values (vote_isAnomaly vote) with
         | Throw error => Throw error
         | Ok explanation => Ok (assemble this historicalData vote explanation processingTime)
         end.
Proof.
  intro Hlong. unfold detect, bind. cbn [fst snd]. rewrite Hlong.
  match goal with
  | |- context [pushIf this "zscore" _ _ ?w0] => exists w0
  end.
  unfold runConfigured, bind, ret. cbn [fst snd].
  match goal with
  | |- context [generateExplanation ?v ?d ?b] =>
      destruct (generateExplanation v d b) as [explanation|error]
  end.
  - eexists. split; [reflexivity|]. unfold assemble. cbn. reflexivity.
  - exists 0%Z. split; reflexivity.
Qed.

End DetectFacts.

(** ** What the configured detectors report *)

Section VerdictFacts.

Context {T : Type} `{Number T}.
Variable this : EnterpriseAnomalyDetector T.
Local Open Scope js_scope.

(** The verdicts of the statistical detectors and of LOF do not read the
    world; the forest's does. *)
Lemma runConfigured_verdicts (v : T) (d : list T) (w : World T) :
  exists w' : World T,
    randoms w' = randoms w
    /\ map verdictOf (fst (runConfigured this v d w))
       = when (shouldRunAlgorithm this "zscore") (zscoreVerdict this v d)
         ++ when (shouldRunAlgorithm this "mad") (madVerdict v d)
         ++ when (shouldRunAlgorithm this "iqr") (iqrVerdict v d)
         ++ when (shouldRunAlgorithm this "isolation-forest") (forestVerdict v d w')
         ++ when (shouldRunAlgorithm this "lof") (lofVerdict v d).
Proof.
  unfold runConfigured, pushIf, when.
  destruct (shouldRunAlgorithm this "zscore"),
           (shouldRunAlgorithm this "mad"),
           (shouldRunAlgorithm this "iqr"),
           (shouldRunAlgorithm this "isolation-forest"),
           (shouldRunAlgorithm this "lof");
    first [ exists w; split; reflexivity
          | eexists; split; [|reflexivity]; reflexivity ].
Qed.

Lemma combine_map_fst {A B C} (f : A -> B) (l : list A) (l' : list C) :
  combine (map f l) l' = map (fun p => (f (fst p), snd p)) (combine l l').
Proof.
  revert l'; induction l as [|a l IH]; intros [|c l']; simpl;
    try reflexivity.
  now rewrite IH.
Qed.

Lemma map_through {A B C} (f : A -> B) (g : B -> C) (l1 l2 : list A) :
  map f l1 = map f l2 ->
  map (fun x => g (f x)) l1 = map (fun x => g (f x)) l2.
Proof.
  intro Heq. rewrite <- (map_map f g l1), <- (map_map f g l2). now rewrite Heq.
Qed.

Lemma map_fst_combine {A B} (l : list A) (l' : list B) :
  List.length l = List.length l' -> map fst (combine l l') = l.
Proof.
  revert l'; induction l as [|a l IH]; intros [|b l'] Hlen; simpl in *;
    try discriminate; [reflexivity|].
  f_equal. apply IH. congruence.
Qed.

Lemma weights_of_verdicts (rs1 rs2 : list (AlgorithmResult T)) :
  map verdictOf rs1 = map verdictOf rs2 ->
  calculateAlgorithmWeights this rs1 = calculateAlgorithmWeights this rs2.
Proof.
  intro Heq. unfold calculateAlgorithmWeights.
  destruct (ensembleWeighting (this_config this)).
  - exact (map_through verdictOf
             (fun x : string * T * bool =>
                match this_performance this (fst (fst x)) with
                | Some perf => f1Score perf
                | None => #1
                end) rs1 rs2 Heq).
  - exact (map_through verdictOf
             (fun x : string * T * bool => snd (fst x) + dec 1 10) rs1 rs2 Heq).
  - exact (map_through verdictOf (fun _ : string * T * bool => #1) rs1 rs2 Heq).
Qed.

Lemma flagged_of_verdicts (rs : list (AlgorithmResult T)) :
  List.length (filter (@alg_isAnomaly T) rs)
  = List.length (filter snd (map verdictOf rs)).
Proof.
  induction rs as [|r rs IH]; simpl; [reflexivity|].
  destruct (alg_isAnomaly r); simpl; now rewrite IH.
Qed.

Lemma products_of_verdicts (rs : list (AlgorithmResult T)) (ws : list T) :
  map (fun rw : AlgorithmResult T * T => alg_score (fst rw) * snd rw) (combine rs ws)
  = map (fun vw : string * T * bool * T => snd (fst (fst vw)) * snd vw)
        (combine (map verdictOf rs) ws).
Proof. rewrite combine_map_fst, map_map. reflexivity. Qed.

(** The vote reads the detectors' names, scores and flags only. *)
Lemma ensembleVote_of_verdicts (rs1 rs2 : list (AlgorithmResult T)) :
  map verdictOf rs1 = map verdictOf rs2 ->
  vote_isAnomaly (ensembleVote this rs1) = vote_isAnomaly (ensembleVote this rs2)
  /\ vote_score (ensembleVote this rs1) = vote_score (ensembleVote this rs2)
  /\ vote_confidence (ensembleVote this rs1) = vote_confidence (ensembleVote this rs2)
  /\ vote_severity (ensembleVote this rs1) = vote_severity (ensembleVote this rs2).
Proof.
  intro Heq.
  destruct rs1 as [|r1 rs1], rs2 as [|r2 rs2]; try discriminate;
    [repeat split|].
  pose proof (weights_of_verdicts _ _ Heq) as Hw.
  pose proof (f_equal (@List.length _) Heq) as Hlen.
  rewrite !length_map in Hlen.
  assert (Hflag : List.length (filter (@alg_isAnomaly T) (r1 :: rs1))
                  = List.length (filter (@alg_isAnomaly T) (r2 :: rs2)))
    by (rewrite !flagged_of_verdicts; now rewrite Heq).
  assert (Hscore : vote_score (ensembleVote this (r1 :: rs1))
                   = vote_score (ensembleVote this (r2 :: rs2))).
  { rewrite !ensembleVote_score. unfold weightedSum.
    rewrite !products_of_verdicts. now rewrite Heq, Hw. }
  unfold ensembleVote in *.
  cbv beta iota zeta in *.
  cbn [vote_isAnomaly vote_score vote_confidence vote_severity] in *.
  unfold len. rewrite Hflag, Hlen, Hscore.
  repeat split.
Qed.

Lemma ensembleVote_keeps_verdicts (rs : list (AlgorithmResult T)) :
  map verdictOf (vote_algorithms (ensembleVote this rs)) = map verdictOf rs.
Proof.
  destruct rs as [|r rs]; [reflexivity|].
  unfold ensembleVote. cbv beta iota zeta. cbn [vote_algorithms].
  rewrite map_map.
  transitivity
    (map verdictOf
         (map fst (combine (r :: rs) (calculateAlgorithmWeights this (r :: rs))))).
  - rewrite map_map. apply map_ext. intros [a b]. reflexivity.
  - rewrite map_fst_combine;
      [reflexivity | now rewrite length_calculateAlgorithmWeights].
Qed.

(** A non-empty array has a smallest and a largest element to print. *)
Lemma generateExplanation_returns (v : T) (d : list T) (flag : bool) :
  d <> [] -> exists e, generateExplanation v d flag = Ok e.
Proof.
  intro Hd. unfold generateExplanation.
  pose proof (length_sort_by (fun a b => a - b) d) as Hlen.
  destruct (sort_by (fun a b => a - b) d) as [|x sorted] eqn:Hsorted.
  - destruct d; [congruence | discriminate].
  - cbn [nth_error].
    destruct (nth_error (x :: sorted) (List.length (x :: sorted) - 1)) eqn:Hmax.
    + eexists. reflexivity.
    + apply nth_error_None in Hmax. simpl in Hmax. lia.
Qed.

Lemma generateExplanation_empty (v : T) (flag : bool) :
  exists e, generateExplanation v [] flag = Throw e.
Proof. eexists. reflexivity. Qed.

End VerdictFacts.

(** ** Too little history *)

(** C4 (as the code has it): a call of [detect] with fewer historical points
    than [config.minDataPoints] returns, without raising, a result with
    [isAnomaly = false], [algorithms = []], [metadata.dataPointsAnalyzed = 0]
    and the reason "Insufficient historical data", spelled with a capital I. *)
Theorem detect_insufficient_history :
  forall (T : Type) (N : Number T) (this : EnterpriseAnomalyDetector T)
         (dataPoint : DataPoint T) (historicalData : list (DataPoint T))
         (w : World T),
    (Z.of_nat (List.length historicalData) < minDataPoints (this_config this))%Z ->
    exists r : AnomalyResult T,
      fst (detect this dataPoint historicalData w) = Ok r
      /\ isAnomaly r = false
      /\ result_algorithms r = []
      /\ dataPointsAnalyzed (metadata r) = 0%Z
      /\ reason (explanation r) = "Insufficient historical data"%string.
Proof.
  intros T N this dataPoint historicalData w Hshort.
  apply Z.ltb_lt in Hshort.
  destruct (detect_short this dataPoint historicalData w Hshort) as [t Ht].
  eexists. split; [exact Ht|]. repeat split.
Qed.

Lemma detect_insufficient_history_witness :
  (Z.of_nat (List.length (@nil (DataPoint float)))
   < minDataPoints (this_config (detector float)))%Z
  /\ exists r : AnomalyResult float,
      fst (detect (detector float) (reading 1000%float) [] sampleWorld) = Ok r
      /\ isAnomaly r = false
      /\ result_algorithms r = []
      /\ dataPointsAnalyzed (metadata r) = 0%Z
      /\ reason (explanation r) = "Insufficient historical data"%string.
Proof.
  split; [simpl; lia|].
  apply (detect_insufficient_history float Float64 (detector float)
           (reading 1000%float) [] sampleWorld).
  simpl; lia.
Defined.

(** C4, counterexample: on an empty history the default detector's reason is
    not the lower-case string of the claim. *)
Lemma detect_insufficient_history_reason_case :
  ~ (exists r : AnomalyResult float,
       fst (detect (detector float) (reading 1000%float) [] sampleWorld) = Ok r
       /\ isAnomaly r = false
       /\ result_algorithms r = []
       /\ dataPointsAnalyzed (metadata r) = 0%Z
       /\ reason (explanation r) = "insufficient historical data"%string).
Proof.
  intros [r [Hr [_ [_ [_ Hreason]]]]].
  vm_compute in Hr. injection Hr as Hr. subst r.
  vm_compute in Hreason. discriminate Hreason.
Qed.

(** ** Determinism *)

Section Determinism.

Context {T : Type} `{Number T}.
Variable this : EnterpriseAnomalyDetector T.

Lemma runConfigured_without_forest (v : T) (d : list T) (w1 w2 : World T) :
  shouldRunAlgorithm this "isolation-forest" = false ->
  map verdictOf (fst (runConfigured this v d w1))
  = map verdictOf (fst (runConfigured this v d w2)).
Proof.
  intro Hforest.
  destruct (runConfigured_verdicts this v d w1) as [w1' [_ H1]].
  destruct (runConfigured_verdicts this v d w2) as [w2' [_ H2]].
  rewrite H1, H2, Hforest. reflexivity.
Qed.

End Determinism.

(** C9: when the configuration does not make the isolation forest run
    (neither 'ensemble' nor 'isolation-forest' is listed), two calls of
    [detect] on the same detector (configuration and performance table), data
    point and history agree on [isAnomaly], [score], [confidence], [severity]
    and [explanation], whatever random numbers and clock readings each call
    meets: the random draws of the isolation forest are the only way the
    world reaches these fields. *)
Theorem detect_deterministic_without_forest :
  forall (T : Type) (N : Number T) (this : EnterpriseAnomalyDetector T)
         (dataPoint : DataPoint T) (historicalData : list (DataPoint T))
         (w1 w2 : World T),
    shouldRunAlgorithm this "isolation-forest" = false ->
    sameVerdict (fst (detect this dataPoint historicalData w1))
                (fst (detect this dataPoint historicalData w2)).
Proof.
  intros T N this dataPoint historicalData w1 w2 Hforest.
  destruct (Z.of_nat (List.length historicalData) <? minDataPoints (this_config this))%Z
    eqn:Hlen.
  - destruct (detect_short this dataPoint historicalData w1 Hlen) as [t1 H1].
    destruct (detect_short this dataPoint historicalData w2 Hlen) as [t2 H2].
    rewrite H1, H2. unfold sameVerdict. cbn. repeat split.
  - destruct (detect_long this dataPoint historicalData w1 Hlen) as [w1' [t1 [_ H1]]].
    destruct (detect_long this dataPoint historicalData w2 Hlen) as [w2' [t2 [_ H2]]].
    cbv zeta in H1, H2. rewrite H1, H2.
    pose proof (runConfigured_without_forest this (value dataPoint)
                  (map (@value T) historicalData) w1' w2' Hforest) as Hsame.
    destruct (ensembleVote_of_verdicts this _ _ Hsame) as [Ha [Hs [Hc Hv]]].
    rewrite Ha.
    unfold sameVerdict.
    match goal with
    | |- context [generateExplanation ?v ?d ?b] =>
        destruct (generateExplanation v d b)
    end; [|reflexivity].
    cbn. repeat split; assumption.
Qed.

Lemma detect_deterministic_without_forest_witness :
  shouldRunAlgorithm
    (newDetector float (configOf ["zscore"; "mad"; "iqr"; "lof"]%string 3))
    "isolation-forest" = false
  /\ sameVerdict
       (fst (detect (newDetector float (configOf ["zscore"; "mad"; "iqr"; "lof"]%string 3))
               (reading 90%float) (map reading [1; 2; 3; 40; 50; 6]%float)
               sampleWorld))
       (fst (detect (newDetector float (configOf ["zscore"; "mad"; "iqr"; "lof"]%string 3))
               (reading 90%float) (map reading [1; 2; 3; 40; 50; 6]%float)
               {| randoms := fun _ => 0.5%float; clock := fun _ => 0%Z |})).
Proof.
  split; [reflexivity|].
  apply (detect_deterministic_without_forest float Float64
           (newDetector float (configOf ["zscore"; "mad"; "iqr"; "lof"]%string 3))).
  reflexivity.
Defined.

(** With the isolation forest running, the draws do reach the score: on the
    history of twenty-nine zeros and one 100, the value 60 is isolated at
    depth 1 when the first split falls below it and at depth 5 when it falls
    above. *)
Lemma forest_score_reads_the_world :
  exists r1 r2 : AnomalyResult float,
    fst (detect (detector float) (reading 60%float) (map reading spikeHistory)
           {| randoms := fun _ => 0.25%float; clock := fun n => Z.of_nat n |}) = Ok r1
    /\ fst (detect (detector float) (reading 60%float) (map reading spikeHistory)
              {| randoms := fun _ => 0.75%float; clock := fun n => Z.of_nat n |}) = Ok r2
    /\ PrimFloat.ltb (score r2) (score r1) = true.
Proof.
  eexists. eexists.
  split; [vm_compute; reflexivity|].
  split; vm_compute; reflexivity.
Qed.

(** ** Which detector runs with which threshold *)

Section Thresholds.

Context {T : Type} `{Number T}.
Variable this : EnterpriseAnomalyDetector T.
Local Open Scope js_scope.

Lemma in_when {A} (b : bool) (x y : A) : In x (when b y) -> x = y.
Proof. destruct b; simpl; [intros [Hx|[]]; congruence | intros []]. Qed.

(** Every entry of a returned [algorithms] list carries the verdict of one of
    the five detectors, run on the data point's value and the values of the
    history. *)
Lemma detect_algorithm_verdicts (dataPoint : DataPoint T)
      (historicalData : list (DataPoint T)) (w : World T)
      (r : AnomalyResult T) (a : AlgorithmResult T) :
  fst (detect this dataPoint historicalData w) = Ok r ->
  In a (result_algorithms r) ->
  let v := value dataPoint in
  let d := map (@value T) historicalData in
  verdictOf a = zscoreVerdict this v d
  \/ verdictOf a = madVerdict v d
  \/ verdictOf a = iqrVerdict v d
  \/ (exists w', verdictOf a = forestVerdict v d w')
  \/ verdictOf a = lofVerdict v d.
Proof.
  intros Hr Ha v d. subst v d.
  destruct (Z.of_nat (List.length historicalData) <? minDataPoints (this_config this))%Z
    eqn:Hlen.
  - destruct (detect_short this dataPoint historicalData w Hlen) as [t Ht].
    rewrite Ht in Hr. injection Hr as Hr. subst r. destruct Ha.
  - destruct (detect_long this dataPoint historicalData w Hlen) as [w1 [t [_ Ht]]].
    cbv zeta in Ht. rewrite Ht in Hr. clear Ht.
    explained Hr. injection Hr as Hr. subst r.
    change (In a (vote_algorithms
                    (ensembleVote this
                       (fst (runConfigured this (value dataPoint)
                               (map (@value T) historicalData) w1))))) in Ha.
    apply (in_map verdictOf) in Ha.
    rewrite ensembleVote_keeps_verdicts in Ha.
    destruct (runConfigured_verdicts this (value dataPoint)
                (map (@value T) historicalData) w1) as [w' [_ Hlist]].
    rewrite Hlist in Ha.
    repeat (apply in_app_or in Ha; destruct Ha as [Ha|Ha]);
      apply in_when in Ha; eauto 6.
Qed.

(** Past the length check, the returned [algorithms] list holds the verdicts
    of exactly the detectors that [shouldRunAlgorithm] accepts, in the order
    of the five tests. *)
Lemma detect_runs_configured (dataPoint : DataPoint T)
      (historicalData : list (DataPoint T)) (w : World T) (r : AnomalyResult T) :
  fst (detect this dataPoint historicalData w) = Ok r ->
  (Z.of_nat (List.length historicalData) <? minDataPoints (this_config this))%Z = false ->
  let v := value dataPoint in
  let d := map (@value T) historicalData in
  exists w' : World T,
    map verdictOf (result_algorithms r)
    = when (shouldRunAlgorithm this "zscore") (zscoreVerdict this v d)
      ++ when (shouldRunAlgorithm this "mad") (madVerdict v d)
      ++ when (shouldRunAlgorithm this "iqr") (iqrVerdict v d)
      ++ when (shouldRunAlgorithm this "isolation-forest") (forestVerdict v d w')
      ++ when (shouldRunAlgorithm this "lof") (lofVerdict v d).
Proof.
  intros Hr Hlen v d. subst v d.
  destruct (detect_long this dataPoint historicalData w Hlen) as [w1 [t [_ Ht]]].
  cbv zeta in Ht. rewrite Ht in Hr. clear Ht.
  explained Hr. injection Hr as Hr. subst r.
  change (result_algorithms _)
    with (vote_algorithms
            (ensembleVote this
               (fst (runConfigured this (value dataPoint)
                       (map (@value T) historicalData) w1)))).
  rewrite ensembleVote_keeps_verdicts.
  destruct (runConfigured_verdicts this (value dataPoint)
              (map (@value T) historicalData) w1) as [w' [_ Hlist]].
  exists w'. exact Hlist.
Qed.

Lemma verdict_listed (rs : list (AlgorithmResult T)) (x : string * T * bool) :
  In x (map verdictOf rs) ->
  exists a, In a rs /\ alg_name a = fst (fst x) /\ alg_score a = snd (fst x)
            /\ alg_isAnomaly a = snd x.
Proof.
  intro Hin. apply in_map_iff in Hin. destruct Hin as [a [Ha Hin]].
  exists a. split; [exact Hin|]. subst x. repeat split.
Qed.

End Thresholds.

(** C10: past the length check, every detector that [shouldRunAlgorithm]
    accepts has run with its own parameter: the result lists an entry
    "zscore" carrying the verdict of [zScore] at the threshold of the
    configured sensitivity (4 for low, 3 for medium, 2 for high, 3 for
    adaptive), an entry "mad" carrying the verdict of [mad] at 3.5 and an
    entry "iqr" carrying the verdict of [iqr] at 1.5, whatever the
    sensitivity; and no entry of these names carries anything else. *)
Theorem detect_detector_thresholds :
  forall (T : Type) (N : Number T) (this : EnterpriseAnomalyDetector T)
         (dataPoint : DataPoint T) (historicalData : list (DataPoint T))
         (w : World T) (r : AnomalyResult T),
    fst (detect this dataPoint historicalData w) = Ok r ->
    let v := value dataPoint in
    let d := map (@value T) historicalData in
    let zThreshold :=
      match sensitivity (this_config this) with
      | low => of_Z 4
      | medium => of_Z 3
      | high => of_Z 2
      | adaptive => of_Z 3
      end in
    let zscore := StatisticalDetectors.zScore v d zThreshold in
    let mad := StatisticalDetectors.mad v d (dec 35 10) in
    let iqr := StatisticalDetectors.iqr v d (dec 15 10) in
    let listed name score flag :=
      exists a, In a (result_algorithms r) /\ alg_name a = name
                /\ alg_score a = score /\ alg_isAnomaly a = flag in
    (* each detector that the configuration asks for has run *)
    ((minDataPoints (this_config this) <= Z.of_nat (List.length historicalData))%Z ->
     (shouldRunAlgorithm this "zscore" = true ->
      listed "zscore"%string (dev_score zscore) (dev_isAnomaly zscore))
     /\ (shouldRunAlgorithm this "mad" = true ->
         listed "mad"%string (dev_score mad) (dev_isAnomaly mad))
     /\ (shouldRunAlgorithm this "iqr" = true ->
         listed "iqr"%string (rng_score iqr) (rng_isAnomaly iqr)))
    (* and no entry of these names reports anything else *)
    /\ (forall a, In a (result_algorithms r) ->
        (alg_name a = "zscore"%string ->
         alg_score a = dev_score zscore /\ alg_isAnomaly a = dev_isAnomaly zscore)
        /\ (alg_name a = "mad"%string ->
            alg_score a = dev_score mad /\ alg_isAnomaly a = dev_isAnomaly mad)
        /\ (alg_name a = "iqr"%string ->
            alg_score a = rng_score iqr /\ alg_isAnomaly a = rng_isAnomaly iqr)).
Proof.
  intros T N this dataPoint historicalData w r Hr v d zThreshold.
  assert (Hz : zThreshold = getSensitivityThreshold this)
    by (unfold zThreshold, getSensitivityThreshold;
        destruct (sensitivity (this_config this)); reflexivity).
  rewrite Hz. clear Hz zThreshold. cbv zeta.
  split.
  - intro Hlong. apply Z.ltb_ge in Hlong.
    destruct (@detect_runs_configured T N this dataPoint historicalData w r Hr Hlong)
      as [w' Hlist].
    cbv zeta in Hlist. fold v d in Hlist.
    split; [|split]; intro Hrun; rewrite Hrun in Hlist.
    + apply (verdict_listed (result_algorithms r) (zscoreVerdict this v d)).
      rewrite Hlist. apply in_or_app. left. apply in_eq.
    + apply (verdict_listed (result_algorithms r) (madVerdict v d)).
      rewrite Hlist. apply in_or_app. right. apply in_or_app. left. apply in_eq.
    + apply (verdict_listed (result_algorithms r) (iqrVerdict v d)).
      rewrite Hlist. apply in_or_app. right. apply in_or_app. right.
      apply in_or_app. left. apply in_eq.
  - intros a Ha.
    pose proof (@detect_algorithm_verdicts T N this dataPoint historicalData w r a Hr Ha)
      as Hcases.
    cbv zeta in Hcases. fold v d in Hcases.
    unfold verdictOf, zscoreVerdict, madVerdict, iqrVerdict, forestVerdict, lofVerdict
      in Hcases.
    cbv zeta in Hcases.
    destruct Hcases as [Hc|[Hc|[Hc|[[w' Hc]|Hc]]]];
      injection Hc as Hname Hscore Hflag;
      (split; [|split]); intro Hn; rewrite Hn in Hname;
      try discriminate Hname; split; assumption.
Qed.

(** C10 at low sensitivity, on the readings 1 to 10 and the value 15.5, whose
    z-score is 3.48: the three detectors are listed, and the z-score entry is
    not flagged, as the threshold 4 has it, where the default threshold 3
    would flag it. *)
Lemma detect_detector_thresholds_witness :
  exists r : AnomalyResult float,
    fst (detect (newDetector float (configAt low ["zscore"; "mad"; "iqr"]%string 10))
           (reading 15.5%float) (map reading oneToTen) sampleWorld) = Ok r
    /\ (exists a, In a (result_algorithms r) /\ alg_name a = "zscore"%string
                  /\ alg_score a
                     = dev_score (StatisticalDetectors.zScore 15.5%float oneToTen 4%float)
                  /\ alg_isAnomaly a = false)
    /\ (exists a, In a (result_algorithms r) /\ alg_name a = "mad"%string
                  /\ alg_score a
                     = dev_score (StatisticalDetectors.mad 15.5%float oneToTen 3.5%float)
                  /\ alg_isAnomaly a
                     = dev_isAnomaly (StatisticalDetectors.mad 15.5%float oneToTen 3.5%float))
    /\ (exists a, In a (result_algorithms r) /\ alg_name a = "iqr"%string
                  /\ alg_score a
                     = rng_score (StatisticalDetectors.iqr 15.5%float oneToTen 1.5%float)
                  /\ alg_isAnomaly a
                     = rng_isAnomaly (StatisticalDetectors.iqr 15.5%float oneToTen 1.5%float))
    /\ dev_isAnomaly (StatisticalDetectors.zScore 15.5%float oneToTen 3%float) = true.
Proof.
  assert (Hr : { r : AnomalyResult float |
                 fst (detect (newDetector float
                                (configAt low ["zscore"; "mad"; "iqr"]%string 10))
                        (reading 15.5%float) (map reading oneToTen) sampleWorld)
                 = Ok r })
    by (eexists; vm_compute; reflexivity).
  destruct Hr as [r Hr].
  exists r. split; [exact Hr|].
  destruct (detect_detector_thresholds float Float64
              (newDetector float (configAt low ["zscore"; "mad"; "iqr"]%string 10))
              (reading 15.5%float) (map reading oneToTen) sampleWorld r Hr)
    as [Hran _].
  destruct Hran as [Hz [Hm Hi]]; [cbn; lia|].
  split; [exact (Hz eq_refl)|].
  split; [exact (Hm eq_refl)|].
  split; [exact (Hi eq_refl)|].
  vm_compute. reflexivity.
Defined.

(** ** Unknown algorithm names *)

Section UnknownNames.

Context {T : Type} `{Number T}.
Variable this : EnterpriseAnomalyDetector T.

Lemma runConfigured_nothing (v : T) (d : list T) (w : World T) :
  (forall name, In name implementedAlgorithms ->
                shouldRunAlgorithm this name = false) ->
  fst (runConfigured this v d w) = [].
Proof.
  intro Hnone.
  destruct (runConfigured_verdicts this v d w) as [w' [_ Hlist]].
  rewrite !Hnone in Hlist by (simpl; tauto).
  simpl in Hlist. now apply map_eq_nil in Hlist.
Qed.

End UnknownNames.

(** On a non-empty history [detect] returns. *)
Lemma detect_returns :
  forall (T : Type) (N : Number T) (this : EnterpriseAnomalyDetector T)
         (dataPoint : DataPoint T) (historicalData : list (DataPoint T))
         (w : World T),
    historicalData <> [] ->
    exists r : AnomalyResult T,
      fst (detect this dataPoint historicalData w) = Ok r.
Proof.
  intros T N this dataPoint historicalData w Hhist.
  destruct (Z.of_nat (List.length historicalData) <? minDataPoints (this_config this))%Z
    eqn:Hlen.
  - destruct (detect_short this dataPoint historicalData w Hlen) as [t Ht].
    eexists. exact Ht.
  - destruct (detect_long this dataPoint historicalData w Hlen) as [w1 [t [_ Ht]]].
    cbv zeta in Ht.
    assert (Hvalues : map (@value T) historicalData <> [])
      by (destruct historicalData; [congruence | discriminate]).
    match type of Ht with
    | context [generateExplanation ?x ?y ?b] =>
        destruct (generateExplanation_returns x y b Hvalues) as [e He];
        rewrite He in Ht
    end.
    eexists. exact Ht.
Qed.

(** With none of the implemented detectors named, a result carries the empty
    verdict. *)
Lemma detect_without_detectors :
  forall (T : Type) (N : Number T) (this : EnterpriseAnomalyDetector T)
         (dataPoint : DataPoint T) (historicalData : list (DataPoint T))
         (w : World T) (r : AnomalyResult T),
    fst (detect this dataPoint historicalData w) = Ok r ->
    (forall name, In name implementedAlgorithms ->
                  shouldRunAlgorithm this name = false) ->
    result_algorithms r = [] /\ isAnomaly r = false /\ score r = of_Z 0.
Proof.
  intros T N this dataPoint historicalData w r Hr Hnone.
  destruct (Z.of_nat (List.length historicalData) <? minDataPoints (this_config this))%Z
    eqn:Hlen.
  - destruct (detect_short this dataPoint historicalData w Hlen) as [t Ht].
    rewrite Ht in Hr. injection Hr as Hr. subst r. repeat split.
  - destruct (detect_long this dataPoint historicalData w Hlen) as [w1 [t [_ Ht]]].
    cbv zeta in Ht. rewrite Ht in Hr. clear Ht.
    rewrite (runConfigured_nothing this _ _ w1 Hnone) in Hr.
    explained Hr. injection Hr as Hr. subst r. repeat split.
Qed.

(** X27: the one way [detect] raises.  It raises (a TypeError) exactly when
    the history is empty and [minDataPoints] is at most 0: the empty history
    passes the length check, and [generateExplanation] cannot print its
    smallest element. *)
Lemma detect_raises_iff :
  forall (T : Type) (N : Number T) (this : EnterpriseAnomalyDetector T)
         (dataPoint : DataPoint T) (historicalData : list (DataPoint T))
         (w : World T),
    (exists e, fst (detect this dataPoint historicalData w) = Throw e)
    <-> historicalData = [] /\ (minDataPoints (this_config this) <= 0)%Z.
Proof.
  intros T N this dataPoint historicalData w. split.
  - intros [e He].
    destruct historicalData as [|p rest].
    + split; [reflexivity|].
      destruct (Z.of_nat (List.length (@nil (DataPoint T)))
                <? minDataPoints (this_config this))%Z eqn:Hlen.
      * destruct (detect_short this dataPoint [] w Hlen) as [t Ht].
        rewrite Ht in He. discriminate He.
      * apply Z.ltb_ge in Hlen. exact Hlen.
    + destruct (detect_returns T N this dataPoint (p :: rest) w) as [r Hr];
        [discriminate|].
      rewrite Hr in He. discriminate He.
  - intros [Hempty Hmin]. subst historicalData.
    assert (Hlen : (Z.of_nat (List.length (@nil (DataPoint T)))
                    <? minDataPoints (this_config this))%Z = false)
      by (apply Z.ltb_ge; exact Hmin).
    destruct (detect_long this dataPoint [] w Hlen) as [w1 [t [_ Ht]]].
    cbv zeta in Ht. eexists. exact Ht.
Qed.

(** C6 (as the code has it): no algorithm name makes [detect] raise.  On a
    non-empty history [detect] returns a result for every configuration,
    whether its names are known or not; a name the coordinator does not
    implement runs no detector, and when none of the implemented detectors is
    named the result is non-anomaly with score 0 and an empty [algorithms]
    list. *)
Theorem detect_ignores_unknown_algorithms :
  forall (T : Type) (N : Number T) (this : EnterpriseAnomalyDetector T)
         (dataPoint : DataPoint T) (historicalData : list (DataPoint T))
         (w : World T),
    historicalData <> [] ->
    exists r : AnomalyResult T,
      fst (detect this dataPoint historicalData w) = Ok r
      /\ ((forall name, In name implementedAlgorithms ->
                        shouldRunAlgorithm this name = false) ->
          result_algorithms r = [] /\ isAnomaly r = false /\ score r = of_Z 0).
Proof.
  intros T N this dataPoint historicalData w Hhist.
  destruct (detect_returns T N this dataPoint historicalData w Hhist) as [r Hr].
  exists r. split; [exact Hr|].
  apply (detect_without_detectors T N this dataPoint historicalData w r Hr).
Qed.

Lemma detect_ignores_unknown_algorithms_witness :
  map reading [1%float] <> []
  /\ exists r : AnomalyResult float,
      fst (detect (newDetector float (configOf ["bogus"]%string 1))
             (reading 200%float) (map reading [1%float]) sampleWorld) = Ok r
      /\ ((forall name, In name implementedAlgorithms ->
                        shouldRunAlgorithm
                          (newDetector float (configOf ["bogus"]%string 1)) name
                        = false) ->
          result_algorithms r = [] /\ isAnomaly r = false /\ score r = 0%float).
Proof.
  split; [discriminate|].
  apply (detect_ignores_unknown_algorithms float Float64
           (newDetector float (configOf ["bogus"]%string 1))
           (reading 200%float) (map reading [1%float]) sampleWorld).
  discriminate.
Defined.

(** C6, counterexample: a configuration that names the unknown algorithm
    "bogus" does not make [detect] raise, so raising is not equivalent to
    naming an unknown algorithm. *)
Lemma unknown_algorithm_does_not_raise :
  ~ (forall (this : EnterpriseAnomalyDetector float) (dataPoint : DataPoint float)
            (historicalData : list (DataPoint float)) (w : World float),
        (exists e, fst (detect this dataPoint historicalData w) = Throw e)
        <-> namesUnknownAlgorithm (this_config this) = true).
Proof.
  intro Hclaim.
  destruct (proj2 (Hclaim (newDetector float (configOf ["bogus"]%string 1))
                          (reading 200%float) (map reading [1%float]) sampleWorld)
                  eq_refl) as [e He].
  vm_compute in He. discriminate He.
Qed.

(** ** Degenerate dispersion *)

Section Dispersion.

Context {T : Type} `{Number T}.
Local Open Scope js_scope.

Lemma zScore_zero_variance (value : T) (data : list T) (threshold : T) :
  (populationStdDev data === #0) = true ->
  StatisticalDetectors.zScore value data threshold
  = {| dev_isAnomaly := false; dev_score := #0; dev_deviation := #0 |}.
Proof.
  intro Hzero. unfold StatisticalDetectors.zScore.
  destruct (List.length data <? 2)%nat; [reflexivity|].
  cbv zeta. unfold populationStdDev, sum in Hzero.
  rewrite <- (fold_left_map_add (fun x => Math_pow (x - mean data) #2)) in Hzero.
  unfold mean, sum in Hzero. rewrite Hzero. reflexivity.
Qed.

Lemma mad_zero_middleDeviation (value : T) (data : list T) (threshold : T) :
  (middleDeviation data === #0) = true ->
  StatisticalDetectors.mad value data threshold
  = {| dev_isAnomaly := false; dev_score := #0; dev_deviation := #0 |}.
Proof.
  intro Hzero. unfold StatisticalDetectors.mad.
  destruct (List.length data <? 2)%nat; [reflexivity|].
  cbv zeta. unfold middleDeviation in Hzero. cbv zeta in Hzero.
  rewrite Hzero. reflexivity.
Qed.

End Dispersion.

(** C1, the failing input: [iqr] has no guard for a zero interquartile range.
    On the constant array [100, 100, 100, 100] both quartiles are 100, the
    bounds collapse to [100, 100], and the value 1000 is reported as an
    anomaly with score [min((1000 - 100) / 0, 1) = 1]. *)
Theorem iqr_zero_spread_flags_anomaly :
  StatisticalDetectors.iqr 1000%float [100; 100; 100; 100]%float
                           StatisticalDetectors.iqr_multiplier
  = {| rng_isAnomaly := true; rng_score := 1%float;
       rng_expectedRange := (100%float, 100%float) |}.
Proof. vm_compute. reflexivity. Qed.


(** The guard of [zScore] tests the computed deviation.  The mean of six
    readings of 0.1 is rounded to 0.09999999999999999, the computed variance
    is not zero, and the value 5 is flagged. *)
Example zScore_constant_array_rounds :
  StatisticalDetectors.zScore 5%float (repeat 0.1%float 6) 3%float
  = {| dev_isAnomaly := true; dev_score := 1%float;
       dev_deviation := 3.5308221078584691e+17%float |}.
Proof. vm_compute. reflexivity. Qed.

(** The guard of [mad] tests the middle of the unsorted deviations.  On
    [1, 1, 5, 1, 1] the median absolute deviation is 0, the deviation [mad]
    reads is the 4 in the middle of the array, and the value 100 is flagged;
    with the 5 moved to the front the guard applies. *)
Example mad_reads_unsorted_deviations :
  medianAbsoluteDeviation onesAndFive = 0%float
  /\ middleDeviation onesAndFive = 4%float
  /\ StatisticalDetectors.mad 100%float onesAndFive StatisticalDetectors.mad_threshold
     = {| dev_isAnomaly := true; dev_score := 1%float;
          dev_deviation := 16.693875%float |}
  /\ StatisticalDetectors.mad 100%float [5; 1; 1; 1; 1]%float
                              StatisticalDetectors.mad_threshold
     = {| dev_isAnomaly := false; dev_score := 0%float; dev_deviation := 0%float |}.
Proof. repeat split; vm_compute; reflexivity. Qed.

(** ** The explanation *)

Section ExplanationFacts.

Context {T : Type} `{Number T}.
Local Open Scope js_scope.

(** The numbers of an explanation, in terms of the mean and the population
    standard deviation; the deviation is still the absolute value of the
    signed quotient. *)
Lemma generateExplanation_numbers (v : T) (d : list T) (flag : bool)
      (e : Explanation T) :
  generateExplanation v d flag = Ok e ->
  expectedRange e
  = (mean d - #2 * populationStdDev d, mean d + #2 * populationStdDev d)
  /\ deviation e
     = Math_abs (if populationStdDev d > #0
                 then (v - mean d) / populationStdDev d else #0).
Proof.
  unfold generateExplanation, populationStdDev, sum.
  rewrite <- (fold_left_map_add (fun x => Math_pow (x - mean d) #2)).
  unfold mean, sum.
  destruct (nth_error (sort_by (fun a b => a - b) d) 0); [|discriminate].
  destruct (nth_error (sort_by (fun a b => a - b) d) _); [|discriminate].
  intro He. injection He as He. subst e. cbn [expectedRange deviation].
  split; reflexivity.
Qed.

End ExplanationFacts.

(** *** Two facts of binary64 *)

Lemma SFabs_binary_round_aux (s : bool) (m e : Z) (l : location) :
  SFabs (binary_round_aux prec emax s m e l)
  = binary_round_aux prec emax false m e l.
Proof.
  unfold binary_round_aux.
  destruct (shr_fexp prec emax m e l) as [mrs' e'].
  destruct (shr_fexp prec emax _ e' loc_Exact) as [mrs'' e''].
  destruct (shr_m mrs''); try reflexivity.
  destruct (e'' <=? emax - prec)%Z; reflexivity.
Qed.

Lemma positive_binary64 (b : float) :
  PrimFloat.ltb 0 b = true ->
  (exists m e, Prim2SF b = S754_finite false m e)
  \/ Prim2SF b = S754_infinity false.
Proof.
  rewrite ltb_spec. change (Prim2SF 0) with (S754_zero false).
  destruct (Prim2SF b) as [s|s| |s m e]; unfold SFltb, SFcompare; simpl;
    try discriminate.
  - destruct s; [discriminate|]. now right.
  - destruct s; [discriminate|]. left; eauto.
Qed.

(** Rounding is symmetric: over a positive divisor the absolute value of the
    quotient is the quotient of the absolute value. *)
Lemma abs_div_positive (a b : float) :
  PrimFloat.ltb 0 b = true ->
  PrimFloat.abs (a / b) = (PrimFloat.abs a / b)%float.
Proof.
  intro Hb. apply Prim2SF_inj.
  rewrite abs_spec, !FloatAxioms.div_spec, abs_spec.
  unfold SF64div.
  destruct (positive_binary64 b Hb) as [[m [e Hfin]]|Hinf];
    [rewrite Hfin | rewrite Hinf];
    destruct (Prim2SF a) as [s|s| |s ma ea]; simpl; try reflexivity.
  destruct (SFdiv_core_binary prec emax (Z.pos ma) ea (Z.pos m) e) as [[mz ez] lz].
  rewrite xorb_false_r. apply SFabs_binary_round_aux.
Qed.

(** A number equal to zero is not above zero. *)
Lemma zero_not_positive (x : float) :
  PrimFloat.eqb x 0 = true -> PrimFloat.ltb 0 x = false.
Proof.
  rewrite FloatAxioms.eqb_spec, ltb_spec. change (Prim2SF 0) with (S754_zero false).
  destruct (Prim2SF x) as [s|s| |s m e]; unfold SFeqb, SFltb, SFcompare; simpl;
    try discriminate; try reflexivity.
  - destruct s; discriminate.
  - destruct s; discriminate.
Qed.

(** C8: when the history has at least [minDataPoints] points, the explanation
    that [detect] returns has [expectedRange = [mean - 2σ, mean + 2σ]], σ the
    population standard deviation of the historical values, and its
    [deviation] is [|value - mean| / σ] when [σ > 0] and [0] when [σ = 0]; on
    a non-empty history [detect] does return.  Stated for binary64, with mean
    and σ computed as the source computes them. *)
Theorem explanation_range_and_deviation :
  forall (this : EnterpriseAnomalyDetector float) (dataPoint : DataPoint float)
         (historicalData : list (DataPoint float)) (w : World float),
    (minDataPoints (this_config this) <= Z.of_nat (List.length historicalData))%Z ->
    let v := value dataPoint in
    let d := map (@value float) historicalData in
    let mu := mean d in
    let sigma := populationStdDev d in
    (historicalData <> [] ->
     exists r, fst (detect this dataPoint historicalData w) = Ok r)
    /\ (forall r : AnomalyResult float,
          fst (detect this dataPoint historicalData w) = Ok r ->
          expectedRange (explanation r) = (mu - 2 * sigma, mu + 2 * sigma)%float
          /\ (PrimFloat.ltb 0 sigma = true ->
              deviation (explanation r) = (PrimFloat.abs (v - mu) / sigma)%float)
          /\ (PrimFloat.eqb sigma 0 = true ->
              deviation (explanation r) = 0%float)).
Proof.
  intros this dataPoint historicalData w Hmin v d mu sigma.
  split.
  - intro Hhist.
    destruct (detect_returns float Float64 this dataPoint
                historicalData w Hhist) as [r Hr].
    now exists r.
  - intros r Hr.
    assert (Hlen : (Z.of_nat (List.length historicalData)
                    <? minDataPoints (this_config this))%Z = false)
      by (apply Z.ltb_ge; exact Hmin).
    destruct (detect_long this dataPoint historicalData w Hlen) as [w1 [t [_ Ht]]].
    cbv zeta in Ht. rewrite Ht in Hr. clear Ht.
    explained Hr. injection Hr as Hr. subst r.
    rename explanation0 into e.
    apply generateExplanation_numbers in Hexplanation.
    destruct Hexplanation as [Hrange Hdev].
    change (explanation (assemble this historicalData _ e t)) with e.
    fold d v in Hrange, Hdev. fold mu sigma in Hrange, Hdev.
    split; [exact Hrange|]. split; intro Hsigma.
    + rewrite Hdev. change (@nlt float Float64 (@of_Z float Float64 0) sigma)
        with (PrimFloat.ltb 0 sigma). rewrite Hsigma.
      apply abs_div_positive. exact Hsigma.
    + rewrite Hdev. change (@nlt float Float64 (@of_Z float Float64 0) sigma)
        with (PrimFloat.ltb 0 sigma).
      rewrite (zero_not_positive sigma Hsigma). reflexivity.
Qed.

Lemma explanation_range_and_deviation_witness :
  (minDataPoints (this_config (newDetector float (configOf ["ensemble"]%string 3)))
   <= Z.of_nat (List.length (map reading [1; 2; 3; 40; 50; 6]%float)))%Z
  /\ exists r : AnomalyResult float,
      fst (detect (newDetector float (configOf ["ensemble"]%string 3))
             (reading 90%float) (map reading [1; 2; 3; 40; 50; 6]%float)
             sampleWorld) = Ok r
      /\ expectedRange (explanation r)
         = (mean [1; 2; 3; 40; 50; 6] - 2 * populationStdDev [1; 2; 3; 40; 50; 6],
            mean [1; 2; 3; 40; 50; 6] + 2 * populationStdDev [1; 2; 3; 40; 50; 6])%float.
Proof.
  split; [simpl; lia|].
  eexists. split; [vm_compute; reflexivity|].
  refine (proj1 (proj2 (explanation_range_and_deviation
                          (newDetector float (configOf ["ensemble"]%string 3))
                          (reading 90%float)
                          (map reading [1; 2; 3; 40; 50; 6]%float) sampleWorld _)
                       _ _)).
  - simpl; lia.
  - vm_compute; reflexivity.
Defined.

(** ** A constant history and a distant value *)

(** With minimum and maximum both 100 the split point is 100, whatever the
    random number. *)
Lemma split_of_constant (r : float) :
  unitInterval r = true -> (100 + r * (100 - 100) = 100)%float.
Proof.
  unfold unitInterval. rewrite andb_true_iff, leb_spec, ltb_spec.
  intros [Hlow Hhigh].
  change (100 - 100)%float with 0%float.
  apply Prim2SF_inj. rewrite add_spec, mul_spec.
  change (Prim2SF 0) with (S754_zero false) in *.
  destruct (Prim2SF r) as [s|s| |s m e].
  - reflexivity.
  - destruct s; [discriminate Hlow | discriminate Hhigh].
  - discriminate Hlow.
  - reflexivity.
Qed.

Section ConstantHistory.

Local Open Scope js_scope.

Lemma isolationLoop_step (n : nat) (v x y : float) (rest : list float)
      (depth : Z) (w : World float) :
  MLDetectors.isolationLoop (S n) v (x :: y :: rest) depth w
  = let subset := x :: y :: rest in
    let min := fold_left Math_min (y :: rest) x in
    let max := fold_left Math_max (y :: rest) x in
    let split := min + randoms w 0 * (max - min) in
    MLDetectors.isolationLoop n v
      (if v < split then filter (fun x => x < split) subset
       else filter (fun x => x >= split) subset)
      (depth + 1)%Z (snd (Math_random w)).
Proof. reflexivity. Qed.

Lemma randomsInRange_next (w : World float) :
  randomsInRange w -> randomsInRange (snd (Math_random w)).
Proof. intros Hw n. exact (Hw (S n)). Qed.

(** On the constant history every split keeps the whole array, so the loop
    runs to its depth limit. *)
Lemma isolationLoop_hundreds (n : nat) (depth : Z) (w : World float) :
  randomsInRange w ->
  fst (MLDetectors.isolationLoop n 1000%float hundreds depth w)
  = (depth + Z.of_nat n)%Z
  /\ randomsInRange (snd (MLDetectors.isolationLoop n 1000%float hundreds depth w)).
Proof.
  revert depth w; induction n as [|n IH]; intros depth w Hw.
  - simpl. split; [f_equal; lia | exact Hw].
  - unfold hundreds. rewrite isolationLoop_step. cbv zeta.
    change (fold_left Math_min _ 100%float) with 100%float.
    change (fold_left Math_max _ 100%float) with 100%float.
    change (@nadd float Float64 100%float
              (@nmul float Float64 (randoms w 0)
                 (@nsub float Float64 100%float 100%float)))
      with (100 + randoms w 0 * (100 - 100))%float.
    rewrite (split_of_constant _ (Hw 0%nat)).
    change (if 1000%float < 100%float
            then filter (fun x : float => x < 100%float) _
            else filter (fun x : float => x >= 100%float) _)
      with hundreds.
    destruct (IH (depth + 1)%Z _ (randomsInRange_next w Hw)) as [Hdepth Hrand].
    split; [rewrite Hdepth; lia | exact Hrand].
Qed.

Lemma isolationDepth_hundreds (w : World float) :
  randomsInRange w ->
  fst (MLDetectors.isolationDepth 1000%float hundreds w) = 5%float
  /\ randomsInRange (snd (MLDetectors.isolationDepth 1000%float hundreds w)).
Proof.
  intro Hw. unfold MLDetectors.isolationDepth, bind, ret. cbn [fst snd].
  change (Z.to_nat (Math_ceil (Math_log2 (len hundreds)))) with 5%nat.
  destruct (isolationLoop_hundreds 5 0 w Hw) as [Hdepth Hrand].
  rewrite Hdepth. split; [reflexivity | exact Hrand].
Qed.

Lemma isolationTrees_hundreds (n : nat) (depths : list float) (w : World float) :
  randomsInRange w ->
  fst (MLDetectors.isolationTrees n 1000%float hundreds depths w)
  = (depths ++ repeat 5%float n)%list.
Proof.
  revert depths w; induction n as [|n IH]; intros depths w Hw.
  - simpl. now rewrite app_nil_r.
  - cbn [MLDetectors.isolationTrees]. unfold bind. cbn [fst snd].
    destruct (isolationDepth_hundreds w Hw) as [Hdepth Hrand].
    rewrite IH by exact Hrand. rewrite Hdepth, <- app_assoc. reflexivity.
Qed.

(** Every tree has depth 5, so there is nothing random in the verdict. *)
Lemma isolationForest_hundreds (w : World float) :
  randomsInRange w ->
  fst (MLDetectors.isolationForest 1000%float hundreds
         MLDetectors.isolationForest_numTrees w)
  = forestOnHundreds.
Proof.
  intro Hw. unfold MLDetectors.isolationForest.
  change (List.length hundreds <? 10)%nat with false. cbv iota.
  unfold bind, ret. cbn [fst snd].
  rewrite (isolationTrees_hundreds _ [] w Hw).
  vm_compute. reflexivity.
Qed.

Lemma runConfigured_hundreds (w : World float) :
  randomsInRange w ->
  map verdictOf (fst (runConfigured (detector float) 1000%float hundreds w))
  = verdictsOnHundreds.
Proof.
  intro Hw.
  destruct (runConfigured_verdicts (detector float) 1000%float hundreds w)
    as [w' [Hrandoms Hlist]].
  rewrite Hlist. unfold forestVerdict.
  rewrite isolationForest_hundreds
    by (intro n; unfold randomsInRange in Hw; rewrite Hrandoms; apply Hw).
  vm_compute. reflexivity.
Qed.

End ConstantHistory.

(** C2 (as the code has it): with the default configuration, [detect] applied
    to the value 1000 against thirty readings of 100 returns
    [isAnomaly = false] with severity info and [explanation.deviation = 0]:
    the standard deviation and the MAD are zero, so [zscore] and [mad] score
    0 and the deviation is reported as 0, and the weighted score stays below
    the threshold 0.6.  It holds for every world whose random numbers lie in
    [0, 1). *)
Theorem constant_history_distant_value :
  forall (dataPoint : DataPoint float) (historicalData : list (DataPoint float))
         (w : World float),
    value dataPoint = 1000%float ->
    map (@value float) historicalData = repeat 100%float 30 ->
    randomsInRange w ->
    exists r : AnomalyResult float,
      fst (detect (detector float) dataPoint historicalData w) = Ok r
      /\ isAnomaly r = false
      /\ severity r = info
      /\ deviation (explanation r) = 0%float.
Proof.
  intros dataPoint historicalData w Hvalue Hhistory Hw.
  change (repeat 100%float 30) with hundreds in Hhistory.
  assert (Hlen : (Z.of_nat (List.length historicalData)
                  <? minDataPoints (this_config (detector float)))%Z = false).
  { rewrite <- (length_map (@value float)), Hhistory. reflexivity. }
  destruct (detect_long (detector float) dataPoint historicalData w Hlen)
    as [w1 [t [Hrandoms Hr]]].
  cbv zeta in Hr. rewrite Hvalue, Hhistory in Hr.
  assert (Hw1 : randomsInRange w1)
    by (intro n; rewrite Hrandoms; apply Hw).
  pose proof (runConfigured_hundreds w1 Hw1) as Hverdicts.
  change verdictsOnHundreds
    with (map verdictOf
              (fst (runConfigured (detector float) 1000%float hundreds sampleWorld)))
    in Hverdicts.
  destruct (ensembleVote_of_verdicts (detector float) _ _ Hverdicts)
    as [Hflag [_ [_ Hseverity]]].
  assert (Hfalse : vote_isAnomaly
                     (ensembleVote (detector float)
                        (fst (runConfigured (detector float) 1000%float hundreds w1)))
                   = false)
    by (rewrite Hflag; vm_compute; reflexivity).
  rewrite Hfalse in Hr.
  assert (Hexplain : exists e, generateExplanation 1000%float hundreds false = Ok e
                               /\ deviation e = 0%float)
    by (eexists; split; vm_compute; reflexivity).
  destruct Hexplain as [e [He Hdev]]. rewrite He in Hr.
  eexists. split; [exact Hr|].
  unfold assemble; cbn [isAnomaly severity explanation].
  split; [exact Hfalse|]. split; [|exact Hdev].
  rewrite Hseverity. vm_compute. reflexivity.
Qed.

Lemma constant_history_distant_value_witness :
  value (reading 1000%float) = 1000%float
  /\ map (@value float) (repeat (reading 100%float) 30) = repeat 100%float 30
  /\ randomsInRange {| randoms := fun _ => 0.5%float; clock := fun n => Z.of_nat n |}
  /\ exists r : AnomalyResult float,
      fst (detect (detector float) (reading 1000%float)
             (repeat (reading 100%float) 30)
             {| randoms := fun _ => 0.5%float; clock := fun n => Z.of_nat n |}) = Ok r
      /\ isAnomaly r = false
      /\ severity r = info
      /\ deviation (explanation r) = 0%float.
Proof.
  split; [reflexivity|]. split; [reflexivity|]. split; [intro n; reflexivity|].
  apply (constant_history_distant_value (reading 1000%float)
           (repeat (reading 100%float) 30)
           {| randoms := fun _ => 0.5%float; clock := fun n => Z.of_nat n |}).
  - reflexivity.
  - reflexivity.
  - intro n; reflexivity.
Defined.

(** C2, counterexample: on that input the result is not an anomaly, its
    severity is info and its deviation is 0, against all three parts of the
    claim. *)
Lemma constant_history_is_not_an_anomaly :
  ~ (exists r : AnomalyResult float,
       fst (detect (detector float) (reading 1000%float)
              (repeat (reading 100%float) 30) sampleWorld) = Ok r
       /\ isAnomaly r = true
       /\ (severity r = warning \/ severity r = critical)
       /\ PrimFloat.ltb 3 (deviation (explanation r)) = true).
Proof.
  intros [r [Hr [Hflag _]]].
  vm_compute in Hr. injection Hr as Hr. subst r.
  discriminate Hflag.
Qed.

(** ** The contributions *)



(** ** Binary64: the unit and the order *)

Section Binary64.

Local Open Scope Z_scope.








Local Open Scope float_scope.




(** *** The order of binary64 *)

Lemma SFcompare_finite (s1 s2 : bool) (m1 m2 : positive) (e1 e2 : Z) :
  SFcompare (S754_finite s1 m1 e1) (S754_finite s2 m2 e2)
  = Some match s1, s2 with
         | true, false => Lt
         | false, true => Gt
         | false, false =>
             match (e1 ?= e2)%Z with
             | Lt => Lt
             | Gt => Gt
             | Eq => (m1 ?= m2)%positive
             end
         | true, true =>
             match (e1 ?= e2)%Z with
             | Lt => Gt
             | Gt => Lt
             | Eq => CompOpp (m1 ?= m2)%positive
             end
         end.
Proof. reflexivity. Qed.

Ltac order_cases :=
  repeat match goal with
         | |- context [(?a ?= ?b)%Z] =>
             destruct (Z.compare_spec a b); subst
         | |- context [(?a ?= ?b)%positive] =>
             destruct (Pos.compare_spec a b); subst
         | H : context [(?a ?= ?b)%Z] |- _ =>
             destruct (Z.compare_spec a b); subst
         | H : context [(?a ?= ?b)%positive] |- _ =>
             destruct (Pos.compare_spec a b); subst
         end;
  cbn in *; try reflexivity; try discriminate; try lia.



Ltac order_by_cases :=
  unfold SFleb, SFltb, SFeqb;
  repeat match goal with
         | x : spec_float |- _ => destruct x as [[|]|[|]| |[|] ? ?]
         end;
  rewrite ?SFcompare_finite; cbn; try discriminate; try reflexivity;
  intros; order_cases.

Lemma SFltb_SFleb_trans (a b c : spec_float) :
  SFltb a b = true -> SFleb b c = true -> SFltb a c = true.
Proof. revert a b c. intros a b c. order_by_cases. Qed.

Lemma SFleb_trans (a b c : spec_float) :
  SFleb a b = true -> SFleb b c = true -> SFleb a c = true.
Proof. order_by_cases. Qed.



Lemma SFleb_not_SFltb (a b : spec_float) : SFleb a b = true -> SFltb b a = false.
Proof. order_by_cases. Qed.


Lemma SFleb_refl (a : spec_float) : SFeqb a a = true -> SFleb a a = true.
Proof.
  unfold SFleb, SFeqb.
  destruct a as [[|]|[|]| |[|] ma ea]; rewrite ?SFcompare_finite; cbn;
    rewrite ?Z.compare_refl, ?Pos.compare_refl; cbn; congruence.
Qed.



Lemma ltb_leb_trans (a b c : float) :
  PrimFloat.ltb a b = true -> PrimFloat.leb b c = true -> PrimFloat.ltb a c = true.
Proof. rewrite leb_spec, !ltb_spec. apply SFltb_SFleb_trans. Qed.

Lemma leb_trans (a b c : float) :
  PrimFloat.leb a b = true -> PrimFloat.leb b c = true -> PrimFloat.leb a c = true.
Proof. rewrite !leb_spec. apply SFleb_trans. Qed.



Lemma leb_not_ltb (a b : float) : PrimFloat.leb a b = true -> PrimFloat.ltb b a = false.
Proof. rewrite leb_spec, ltb_spec. apply SFleb_not_SFltb. Qed.


Lemma leb_refl (a : float) : PrimFloat.eqb a a = true -> PrimFloat.leb a a = true.
Proof. rewrite leb_spec, eqb_spec. apply SFleb_refl. Qed.


End Binary64.

(** ** Monotonicity *)


Section ZScoreOnly.

Context {T : Type} `{Number T}.
Variable this : EnterpriseAnomalyDetector T.


End ZScoreOnly.

Section ZScoreShape.

Context {T : Type} `{Number T}.
Local Open Scope js_scope.


End ZScoreShape.

Section BinaryScores.

Local Open Scope float_scope.





Variable this : EnterpriseAnomalyDetector float.




End BinaryScores.



(** The deviation is taken from the rounded mean.  Six readings of 0.1 have
    the mean 0.1, and binary64 computes 0.09999999999999999: with zscore
    alone the value 0.1, at distance 0 from the mean, scores 1/3, and the
    value 0.09999999999999999 at a positive distance scores 0. *)
Example zscore_score_follows_the_rounded_mean :
  exists r1 r2 : AnomalyResult float,
    fst (detect (newDetector float (configOf ["zscore"]%string 6))
           (reading 0.1%float) (map reading (repeat 0.1%float 6)) sampleWorld) = Ok r1
    /\ fst (detect (newDetector float (configOf ["zscore"]%string 6))
              (reading 0.09999999999999999%float)
              (map reading (repeat 0.1%float 6)) sampleWorld) = Ok r2
    /\ mean (repeat 0.1%float 6) = 0.09999999999999999%float
    /\ score r1 = 0.33333333333333331%float
    /\ score r2 = 0%float.
Proof.
  eexists. eexists.
  split; [vm_compute; reflexivity|].
  split; [vm_compute; reflexivity|].
  repeat split; vm_compute; reflexivity.
Qed.

(** * Further properties

    The rest of the module and what it calls: the GESD and time-series
    detectors, the order and the effects of a detection, and the
    observability module. *)

(** ** GESD *)

Section GesdFacts.

Context {T : Type} `{Number T}.
Local Open Scope js_scope.

(** The scan returns what it started from, or an index of the array. *)
Lemma gesdScan_index (mean stdDev : T) (workingData : list T) (idx : Z)
      (maxDeviation : T) (maxIndex : Z) :
  StatisticalDetectors.gesdScan mean stdDev workingData idx maxDeviation maxIndex
  = (maxDeviation, maxIndex)
  \/ (idx <= snd (StatisticalDetectors.gesdScan mean stdDev workingData idx
                    maxDeviation maxIndex)
      < idx + Z.of_nat (List.length workingData))%Z.
Proof.
  revert idx maxDeviation maxIndex.
  induction workingData as [|val rest IH]; intros idx maxDeviation maxIndex.
  - left. reflexivity.
  - cbn [StatisticalDetectors.gesdScan]. cbv zeta.
    destruct (Math_abs (val - mean) / stdDev > maxDeviation).
    + right.
      destruct (IH (idx + 1)%Z (Math_abs (val - mean) / stdDev) idx) as [Heq|Hin].
      * rewrite Heq. cbn [snd List.length]. lia.
      * cbn [List.length]. lia.
    + destruct (IH (idx + 1)%Z maxDeviation maxIndex) as [Heq|Hin].
      * left. exact Heq.
      * right. cbn [List.length]. lia.
Qed.

Lemma in_splice_one {A} (a : list A) (start : Z) (x : A) :
  In x (StatisticalDetectors.splice_one a start) -> In x a.
Proof.
  unfold StatisticalDetectors.splice_one. cbv zeta. intro Hin.
  apply in_app_or in Hin. destruct Hin as [Hin|Hin].
  - rewrite <- (firstn_skipn (Z.to_nat (if (start <? 0)%Z
                                         then Z.max (Z.of_nat (List.length a) + start) 0
                                         else Z.min start (Z.of_nat (List.length a)))) a).
    apply in_or_app. left. exact Hin.
  - rewrite <- (firstn_skipn (S (Z.to_nat (if (start <? 0)%Z
                                         then Z.max (Z.of_nat (List.length a) + start) 0
                                         else Z.min start (Z.of_nat (List.length a))))) a).
    apply in_or_app. right. exact Hin.
Qed.

Lemma length_splice_one {A} (a : list A) (start : Z) :
  (- Z.of_nat (List.length a) <= start < Z.of_nat (List.length a))%Z ->
  List.length (StatisticalDetectors.splice_one a start) = pred (List.length a).
Proof.
  intro Hrange. unfold StatisticalDetectors.splice_one. cbv zeta.
  rewrite length_app, length_firstn, length_skipn.
  destruct (start <? 0)%Z eqn:Hneg.
  - apply Z.ltb_lt in Hneg. lia.
  - apply Z.ltb_ge in Hneg. lia.
Qed.

Lemma in_set_add (x y : T) (s : list T) :
  In x (StatisticalDetectors.set_add y s) ->
  x = StatisticalDetectors.canonicalKey y \/ In x s.
Proof.
  unfold StatisticalDetectors.set_add. cbv zeta.
  destruct (existsb _ s); intro Hin.
  - right. exact Hin.
  - apply in_app_or in Hin. destruct Hin as [Hin|[Hin|[]]].
    + right. exact Hin.
    + left. symmetry. exact Hin.
Qed.

Lemma length_set_add (y : T) (s : list T) :
  (List.length (StatisticalDetectors.set_add y s) <= S (List.length s))%nat.
Proof.
  unfold StatisticalDetectors.set_add. cbv zeta.
  destruct (existsb _ s); [lia|]. rewrite length_app. cbn. lia.
Qed.

Lemma array_get_in (a : list T) (i : Z) :
  (0 <= i < Z.of_nat (List.length a))%Z -> In (array_get a i) a.
Proof.
  intro Hrange. unfold array_get.
  destruct (i <? 0)%Z eqn:Hneg; [apply Z.ltb_lt in Hneg; lia|].
  apply nth_In. lia.
Qed.

Lemma gesdLoop_length (remaining : nat) (workingData outliers : list T) :
  (List.length (StatisticalDetectors.gesdLoop remaining workingData outliers)
   <= List.length outliers + Nat.min remaining (List.length workingData - 2))%nat.
Proof.
  revert workingData outliers.
  induction remaining as [|n IH]; intros workingData outliers.
  - cbn. lia.
  - cbn [StatisticalDetectors.gesdLoop].
    destruct (2 <? List.length workingData)%nat eqn:Hlong; [|lia].
    apply Nat.ltb_lt in Hlong. cbv zeta.
    match goal with
    | |- context [StatisticalDetectors.gesdScan ?m ?s ?d ?i ?md ?mi] =>
        pose proof (gesdScan_index m s d i md mi) as Hscan;
        destruct (StatisticalDetectors.gesdScan m s d i md mi) as [deviation index]
    end.
    cbn [fst snd] in *.
    destruct (deviation > #3); [|lia].
    rewrite IH.
    pose proof (length_set_add (array_get workingData index) outliers).
    rewrite length_splice_one; [lia|].
    destruct Hscan as [Heq|Hin]; [injection Heq as _ Heq; lia | lia].
Qed.

Hypothesis critical_positive : (#0 > #3) = false.

Lemma gesdLoop_in (remaining : nat) (workingData outliers : list T) (x : T) :
  In x (StatisticalDetectors.gesdLoop remaining workingData outliers) ->
  In x outliers \/ In x (map StatisticalDetectors.canonicalKey workingData).
Proof.
  revert workingData outliers.
  induction remaining as [|n IH]; intros workingData outliers Hin.
  - left. exact Hin.
  - cbn [StatisticalDetectors.gesdLoop] in Hin.
    destruct (2 <? List.length workingData)%nat; [|left; exact Hin].
    cbv zeta in Hin.
    match type of Hin with
    | context [StatisticalDetectors.gesdScan ?m ?s ?d ?i ?md ?mi] =>
        pose proof (gesdScan_index m s d i md mi) as Hscan;
        destruct (StatisticalDetectors.gesdScan m s d i md mi) as [deviation index]
    end.
    cbn [fst snd] in *.
    destruct (deviation > #3) eqn:Hcrit; [|left; exact Hin].
    destruct Hscan as [Heq|Hrange].
    + injection Heq as Hd _. subst deviation. congruence.
    + apply IH in Hin. destruct Hin as [Hin|Hin].
      * apply in_set_add in Hin. destruct Hin as [Hin|Hin].
        -- right. subst x. apply in_map. apply array_get_in. lia.
        -- left. exact Hin.
      * right. apply in_map_iff in Hin. destruct Hin as [y [Hy Hin]].
        apply in_map_iff. exists y. split; [exact Hy|].
        apply in_splice_one in Hin. exact Hin.
Qed.

End GesdFacts.

(** The two zeros are the numbers that [===] finds equal to 0. *)
Lemma eqb_zero (y : float) :
  PrimFloat.eqb y 0 = true -> y = 0%float \/ y = (-0)%float.
Proof.
  intro Hy. rewrite eqb_spec in Hy.
  change (Prim2SF 0) with (S754_zero false) in Hy.
  destruct (Prim2SF y) as [[|]| | |s m e] eqn:Hs; try discriminate Hy.
  - right. apply Prim2SF_inj. rewrite Hs. reflexivity.
  - left. apply Prim2SF_inj. rewrite Hs. reflexivity.
  - destruct s; discriminate Hy.
  - destruct s; discriminate Hy.
Qed.

(** X1: every outlier that [gesd] reports is one of the values of [data], or
    is [+0] where [data] holds [-0] (binary64): the scan finds an index of
    the working array whenever its largest deviation exceeds the critical
    value, the working array only loses elements, and the set stores [-0] as
    [+0]. *)
Theorem gesd_outliers_are_data :
  forall (data : list float) (maxOutliers : nat) (x : float),
    In x (StatisticalDetectors.gesd data maxOutliers) ->
    In x data \/ (x = 0%float /\ In (-0)%float data).
Proof.
  intros data maxOutliers x Hin. unfold StatisticalDetectors.gesd in Hin.
  destruct (List.length data <? 3)%nat; [destruct Hin|].
  apply gesdLoop_in in Hin; [|reflexivity].
  destruct Hin as [[]|Hin].
  apply in_map_iff in Hin. destruct Hin as [y [Hkey Hy]].
  unfold StatisticalDetectors.canonicalKey in Hkey.
  change (neq y (of_Z 0)) with (PrimFloat.eqb y 0) in Hkey.
  destruct (PrimFloat.eqb y 0) eqn:Hzero.
  - apply eqb_zero in Hzero. destruct Hzero as [Hz|Hz]; subst y.
    + left. rewrite <- Hkey. exact Hy.
    + right. split; [symmetry; exact Hkey | exact Hy].
  - left. subst x. exact Hy.
Qed.

(** X1 at the reading -0 before eleven readings of 100: the zero is
    reported, as [+0]. *)
Lemma gesd_outliers_are_data_witness :
  In 0%float (StatisticalDetectors.gesd zeroAmongHundreds StatisticalDetectors.gesd_maxOutliers)
  /\ (In 0%float zeroAmongHundreds
      \/ (0%float = 0%float /\ In (-0)%float zeroAmongHundreds)).
Proof.
  assert (Hin : In 0%float
                   (StatisticalDetectors.gesd zeroAmongHundreds
                      StatisticalDetectors.gesd_maxOutliers))
    by (vm_compute; left; reflexivity).
  split; [exact Hin|].
  exact (gesd_outliers_are_data zeroAmongHundreds
           StatisticalDetectors.gesd_maxOutliers 0%float Hin).
Defined.

(** X2: [gesd] reports at most [maxOutliers] outliers and leaves at least two
    values unreported: the set has at most
    [min maxOutliers (data.length - 2)] elements, and none for fewer than
    three values. *)
Theorem gesd_count :
  forall (T : Type) (N : Number T) (data : list T) (maxOutliers : nat),
    (List.length (StatisticalDetectors.gesd data maxOutliers)
     <= Nat.min maxOutliers (List.length data - 2))%nat.
Proof.
  intros T N data maxOutliers. unfold StatisticalDetectors.gesd.
  destruct (List.length data <? 3)%nat; [cbn; lia|].
  rewrite gesdLoop_length. cbn [List.length]. lia.
Qed.

(** Ten values sit on the boundary: in binary64 the deviation of 0.7 among
    nine readings of 0.1 rounds above 3, and it is reported. *)
Example gesd_ten_points_rounded :
  StatisticalDetectors.gesd
    [0.1; 0.1; 0.1; 0.1; 0.1; 0.1; 0.1; 0.1; 0.1; 0.7]%float
    StatisticalDetectors.gesd_maxOutliers
  = [0.7]%float.
Proof. vm_compute. reflexivity. Qed.

(** ** The time-series decomposition *)

Section SeriesFacts.

Context {T : Type} `{Number T}.
Local Open Scope js_scope.

Lemma length_mapi {A B} (f : A -> nat -> B) (a : list A) :
  List.length (TimeSeriesDetectors.mapi f a) = List.length a.
Proof.
  unfold TimeSeriesDetectors.mapi.
  rewrite length_map, length_combine, length_seq. lia.
Qed.

Lemma in_mapi {A B} (f : A -> nat -> B) (a : list A) (y : B) :
  In y (TimeSeriesDetectors.mapi f a) ->
  exists (i : nat) (v : A), nth_error a i = Some v /\ y = f v i.
Proof.
  unfold TimeSeriesDetectors.mapi. intro Hin.
  apply in_map_iff in Hin. destruct Hin as [[i v] [Hy Hin]].
  exists i, v. split; [|symmetry; exact Hy].
  assert (Hgen : forall (l : list A) (s : nat),
             In (i, v) (combine (seq s (List.length l)) l) ->
             nth_error l (i - s) = Some v /\ (s <= i)%nat).
  { clear. intro l. induction l as [|x l IH]; intros s Hin.
    - destruct Hin.
    - cbn in Hin. destruct Hin as [Heq|Hin].
      + injection Heq as Hs Hx. subst. rewrite Nat.sub_diag. split; [reflexivity|lia].
      + apply IH in Hin. destruct Hin as [Hnth Hle].
        replace (i - s)%nat with (S (i - S s)) by lia. split; [exact Hnth|lia]. }
  apply Hgen in Hin. rewrite Nat.sub_0_r in Hin. apply Hin.
Qed.

Lemma length_movingAverage (data : list T) (window : nat) :
  List.length (TimeSeriesDetectors.movingAverage data window) = List.length data.
Proof.
  unfold TimeSeriesDetectors.movingAverage. rewrite length_map. apply length_seq.
Qed.

Lemma length_add_at (cells : list T) (j : nat) (x : T) :
  List.length (TimeSeriesDetectors.add_at cells j x) = List.length cells.
Proof.
  revert j. induction cells as [|c cells IH]; intro j; [reflexivity|].
  destruct j; cbn; [reflexivity | rewrite IH; reflexivity].
Qed.

Lemma length_addEach (period : nat) (amounts : list T) (i : nat) (cells : list T) :
  List.length (TimeSeriesDetectors.addEach period amounts i cells)
  = List.length cells.
Proof.
  revert i cells. induction amounts as [|x rest IH]; intros i cells; [reflexivity|].
  cbn [TimeSeriesDetectors.addEach]. rewrite IH.
  destruct (TimeSeriesDetectors.remainder i period); [apply length_add_at|reflexivity].
Qed.

Lemma length_extractSeasonality (data : list T) (period : nat) :
  List.length (TimeSeriesDetectors.extractSeasonality data period) = period.
Proof.
  unfold TimeSeriesDetectors.extractSeasonality. cbv zeta.
  rewrite length_mapi, length_addEach. apply repeat_length.
Qed.

Lemma all_equal_repeat {A} (l : list A) (c : A) (n : nat) :
  List.length l = n -> (forall x, In x l -> x = c) -> l = repeat c n.
Proof.
  intros Hn Hall. subst n.
  induction l as [|x l IH]; [reflexivity|].
  cbn. rewrite <- IH by (intros y Hy; apply Hall; right; exact Hy).
  f_equal. apply Hall. left. reflexivity.
Qed.

Lemma in_slice {A} (a : list A) (start stop : nat) (x : A) :
  In x (TimeSeriesDetectors.slice a start stop) -> In x a.
Proof.
  unfold TimeSeriesDetectors.slice. intro Hin.
  rewrite <- (firstn_skipn start a). apply in_or_app. right.
  rewrite <- (firstn_skipn (Nat.min stop (List.length a) - start) (skipn start a)).
  apply in_or_app. left. exact Hin.
Qed.

Lemma length_slice {A} (a : list A) (start stop : nat) :
  List.length (TimeSeriesDetectors.slice a start stop)
  = (Nat.min stop (List.length a) - start)%nat.
Proof.
  unfold TimeSeriesDetectors.slice. rewrite length_firstn, length_skipn. lia.
Qed.

Lemma nth_repeat_within {A} (c d : A) (n i : nat) :
  (i < n)%nat -> nth i (repeat c n) d = c.
Proof.
  revert i. induction n as [|n IH]; intros i Hi; [lia|].
  destruct i; [reflexivity|]. cbn. apply IH. lia.
Qed.

End SeriesFacts.

(** X4: the three arrays of [stl]: [trend] and [residual] are as long as the
    series, and [seasonal] has [seasonality] elements, whatever the
    arithmetic and for an empty series or a zero seasonality too. *)
Theorem stl_shapes :
  forall (T : Type) (N : Number T) (dataPoints : list (DataPoint T))
         (seasonality : nat),
    List.length (TimeSeriesDetectors.stl_trend
                   (TimeSeriesDetectors.stl dataPoints seasonality))
    = List.length dataPoints
    /\ List.length (TimeSeriesDetectors.stl_seasonal
                      (TimeSeriesDetectors.stl dataPoints seasonality))
       = seasonality
    /\ List.length (TimeSeriesDetectors.stl_residual
                      (TimeSeriesDetectors.stl dataPoints seasonality))
       = List.length dataPoints.
Proof.
  intros T N dataPoints seasonality. unfold TimeSeriesDetectors.stl. cbv zeta.
  cbn [TimeSeriesDetectors.stl_trend TimeSeriesDetectors.stl_seasonal
       TimeSeriesDetectors.stl_residual].
  rewrite length_movingAverage, length_extractSeasonality, length_mapi, length_map.
  repeat split.
Qed.


Section BinarySeries.

Local Open Scope float_scope.

(** Subtracting NaN gives NaN. *)
Lemma sub_nan (v : float) : v - nan = nan.
Proof.
  apply Prim2SF_inj. rewrite sub_spec.
  change (Prim2SF nan) with S754_nan.
  destruct (Prim2SF v) as [s|s| |s m e]; reflexivity.
Qed.

End BinarySeries.

(** X7: [stl] with a seasonality of 0 does not raise (binary64): every window
    of the moving average is empty, so every trend value is 0/0, the seasonal
    array is empty, and every residual is NaN. *)
Theorem stl_zero_seasonality :
  forall (dataPoints : list (DataPoint float)),
    TimeSeriesDetectors.stl dataPoints 0
    = {| TimeSeriesDetectors.stl_trend := repeat nan (List.length dataPoints);
         TimeSeriesDetectors.stl_seasonal := [];
         TimeSeriesDetectors.stl_residual := repeat nan (List.length dataPoints) |}.
Proof.
  intro dataPoints. unfold TimeSeriesDetectors.stl. cbv zeta.
  set (values := map (@value float) dataPoints).
  assert (Hn : List.length values = List.length dataPoints) by apply length_map.
  assert (Htrend : TimeSeriesDetectors.movingAverage values 0
                   = repeat nan (List.length dataPoints)).
  { apply all_equal_repeat; [rewrite length_movingAverage; exact Hn|].
    intros t Ht.
    unfold TimeSeriesDetectors.movingAverage in Ht.
    apply in_map_iff in Ht. destruct Ht as [i [Ht Hi]]. subst t. cbv zeta.
    assert (Hempty : TimeSeriesDetectors.slice values (Nat.max 0 (i - 0 / 2))
                       (Nat.min (List.length values) (i + (0 + 1) / 2)) = []).
    { apply length_zero_iff_nil. rewrite length_slice.
      change ((0 + 1) / 2)%nat with 0%nat. change (0 / 2)%nat with 0%nat. lia. }
    rewrite Hempty. reflexivity. }
  rewrite Htrend.
  f_equal.
  - unfold TimeSeriesDetectors.extractSeasonality. cbv zeta.
    apply length_zero_iff_nil. rewrite length_mapi, length_addEach. reflexivity.
  - apply all_equal_repeat; [rewrite length_mapi; exact Hn|].
    intros y Hy.
    apply in_mapi in Hy. destruct Hy as [i [v [Hnth Hy]]]. subst y.
    cbn [TimeSeriesDetectors.remainder].
    assert (Hi : (i < List.length dataPoints)%nat).
    { rewrite <- Hn. apply nth_error_Some. congruence. }
    rewrite nth_repeat_within by exact Hi.
    change (v - nan - nan = nan)%float. rewrite sub_nan. reflexivity.
Qed.

Section SortFacts.

Context {T : Type} `{Number T}.
Local Open Scope js_scope.

Lemma in_insert_by {A} (cmp : A -> A -> T) (x y : A) (l : list A) :
  In y (insert_by cmp x l) <-> y = x \/ In y l.
Proof.
  induction l as [|z l IH]; cbn.
  - split; [intros [Hy|[]]; left; symmetry; exact Hy | intros [Hy|[]]; left; symmetry; exact Hy].
  - destruct (cmp x z > #0); cbn.
    + rewrite IH. split.
      * intros [Hz|[Hx|Hl]]; [right; left; exact Hz | left; exact Hx | right; right; exact Hl].
      * intros [Hx|[Hz|Hl]]; [right; left; exact Hx | left; exact Hz | right; right; exact Hl].
    + split.
      * intros [Hx|Hl]; [left; symmetry; exact Hx | right; exact Hl].
      * intros [Hx|Hl]; [left; symmetry; exact Hx | right; exact Hl].
Qed.

Lemma in_sort_by {A} (cmp : A -> A -> T) (y : A) (l : list A) :
  In y (sort_by cmp l) <-> In y l.
Proof.
  induction l as [|x l IH]; cbn; [reflexivity|].
  fold (sort_by cmp l). rewrite in_insert_by, IH.
  split; intros [Hx|Hl]; [left; symmetry; exact Hx | right; exact Hl
                         | left; symmetry; exact Hx | right; exact Hl].
Qed.

End SortFacts.

(** ** The configured names *)

Section DetectOrder.

Context {T : Type} `{Number T}.
Variable this : EnterpriseAnomalyDetector T.

Lemma names_of_verdicts (rs : list (AlgorithmResult T)) :
  map (@alg_name T) rs = map (fun x => fst (fst x)) (map verdictOf rs).
Proof. rewrite map_map. reflexivity. Qed.

Lemma runConfigured_names (v : T) (d : list T) (w : World T) :
  map (@alg_name T) (fst (runConfigured this v d w))
  = filter (shouldRunAlgorithm this) implementedAlgorithms.
Proof.
  rewrite names_of_verdicts.
  destruct (runConfigured_verdicts this v d w) as [w' [_ Hlist]].
  rewrite Hlist. unfold implementedAlgorithms, when. cbn [filter].
  destruct (shouldRunAlgorithm this "zscore"),
           (shouldRunAlgorithm this "mad"),
           (shouldRunAlgorithm this "iqr"),
           (shouldRunAlgorithm this "isolation-forest"),
           (shouldRunAlgorithm this "lof"); reflexivity.
Qed.

End DetectOrder.

(** X15: past the length check [detect] lists its detectors in the order
    zscore, mad, iqr, isolation-forest, lof, each at most once: the names of
    [algorithms] in the result are the implemented names that
    [shouldRunAlgorithm] accepts, whatever the order and the repetitions in
    the configuration. *)
Theorem detect_reports_in_fixed_order :
  forall (T : Type) (N : Number T) (this : EnterpriseAnomalyDetector T)
         (dataPoint : DataPoint T) (historicalData : list (DataPoint T))
         (w : World T) (r : AnomalyResult T),
    fst (detect this dataPoint historicalData w) = Ok r ->
    (minDataPoints (this_config this) <= Z.of_nat (List.length historicalData))%Z ->
    map (@alg_name T) (result_algorithms r)
    = filter (shouldRunAlgorithm this) implementedAlgorithms.
Proof.
  intros T N this dataPoint historicalData w r Hr Hlong.
  apply Z.ltb_ge in Hlong.
  destruct (detect_long this dataPoint historicalData w Hlong) as [w1 [t [_ Ht]]].
  cbv zeta in Ht. rewrite Ht in Hr. clear Ht.
  explained Hr. injection Hr as Hr. subst r.
  cbn [assemble result_algorithms].
  rewrite names_of_verdicts, ensembleVote_keeps_verdicts, <- names_of_verdicts.
  apply runConfigured_names.
Qed.

(** X15 with the configured names lof, zscore, lof, stl: the result lists
    zscore, then lof. *)
Lemma detect_reports_in_fixed_order_witness :
  exists r : AnomalyResult float,
    fst (detect (newDetector float (configOf ["lof"; "zscore"; "lof"; "stl"]%string 3))
           (reading 103%float) (map reading [1; 2; 3; 40; 50; 6; 76; 8; 9]%float)
           sampleWorld) = Ok r
    /\ (minDataPoints (this_config (newDetector float
                                      (configOf ["lof"; "zscore"; "lof"; "stl"]%string 3)))
        <= Z.of_nat (List.length (map reading [1; 2; 3; 40; 50; 6; 76; 8; 9]%float)))%Z
    /\ map (@alg_name float) (result_algorithms r) = ["zscore"; "lof"]%string.
Proof.
  destruct (detect_returns float Float64
              (newDetector float (configOf ["lof"; "zscore"; "lof"; "stl"]%string 3))
              (reading 103%float) (map reading [1; 2; 3; 40; 50; 6; 76; 8; 9]%float)
              sampleWorld) as [r Hr]; [discriminate|].
  exists r. split; [exact Hr|].
  assert (Hlong : (minDataPoints
                     (this_config (newDetector float
                                     (configOf ["lof"; "zscore"; "lof"; "stl"]%string 3)))
                   <= Z.of_nat (List.length
                                  (map reading [1; 2; 3; 40; 50; 6; 76; 8; 9]%float)))%Z)
    by (cbn; lia).
  split; [exact Hlong|].
  exact (detect_reports_in_fixed_order float Float64
           (newDetector float (configOf ["lof"; "zscore"; "lof"; "stl"]%string 3))
           (reading 103%float) (map reading [1; 2; 3; 40; 50; 6; 76; 8; 9]%float)
           sampleWorld r Hr Hlong).
Defined.

(** X16: [detect] reads the configured names only through
    [shouldRunAlgorithm] at the five implemented names: two lists of names
    that agree there give the same result and the same reads of the clock and
    of the random numbers.  Order, repetitions and names that are not
    implemented (gesd and stl among them) change nothing. *)
Theorem detect_reads_algorithms_as_a_set :
  forall (T : Type) (N : Number T) (this : EnterpriseAnomalyDetector T)
         (names1 names2 : list string)
         (dataPoint : DataPoint T) (historicalData : list (DataPoint T))
         (w : World T),
    (forall name, In name implementedAlgorithms ->
                  shouldRunAlgorithm (withAlgorithms this names1) name
                  = shouldRunAlgorithm (withAlgorithms this names2) name) ->
    detect (withAlgorithms this names1) dataPoint historicalData w
    = detect (withAlgorithms this names2) dataPoint historicalData w.
Proof.
  intros T N this names1 names2 dataPoint historicalData w Hsame.
  unfold detect, pushIf.
  rewrite (Hsame "zscore"%string), (Hsame "mad"%string), (Hsame "iqr"%string),
          (Hsame "isolation-forest"%string), (Hsame "lof"%string)
    by (unfold implementedAlgorithms; simpl; tauto).
  reflexivity.
Qed.

(** X16 with the names zscore, mad against mad, gesd, zscore, mad,
    prophet *)
Lemma detect_reads_algorithms_as_a_set_witness :
  (forall name, In name implementedAlgorithms ->
                shouldRunAlgorithm
                  (withAlgorithms (detector float) ["zscore"; "mad"]%string) name
                = shouldRunAlgorithm
                    (withAlgorithms (detector float)
                       ["mad"; "gesd"; "zscore"; "mad"; "prophet"]%string) name)
  /\ detect (withAlgorithms (detector float) ["zscore"; "mad"]%string)
            (reading 103%float) (map reading spikeHistory) sampleWorld
     = detect (withAlgorithms (detector float)
                 ["mad"; "gesd"; "zscore"; "mad"; "prophet"]%string)
              (reading 103%float) (map reading spikeHistory) sampleWorld.
Proof.
  assert (Hsame : forall name, In name implementedAlgorithms ->
                    shouldRunAlgorithm
                      (withAlgorithms (detector float) ["zscore"; "mad"]%string) name
                    = shouldRunAlgorithm
                        (withAlgorithms (detector float)
                           ["mad"; "gesd"; "zscore"; "mad"; "prophet"]%string) name).
  { intros name Hin. unfold implementedAlgorithms in Hin. simpl in Hin.
    destruct Hin as [<-|[<-|[<-|[<-|[<-|[]]]]]]; reflexivity. }
  split; [exact Hsame|].
  exact (detect_reads_algorithms_as_a_set float Float64 (detector float)
           ["zscore"; "mad"]%string
           ["mad"; "gesd"; "zscore"; "mad"; "prophet"]%string
           (reading 103%float) (map reading spikeHistory) sampleWorld Hsame).
Defined.

Section ZeroScores.

Local Open Scope float_scope.

Variable this : EnterpriseAnomalyDetector float.

Lemma sum_of_zeros (l : list float) :
  (forall x, In x l -> x = 0) -> sum l = 0.
Proof.
  unfold sum. change (@of_Z float Float64 0) with 0.
  induction l as [|x l IH]; intro Hall; [reflexivity|].
  cbn [fold_left]. rewrite (Hall x (or_introl eq_refl)).
  change (@nadd float Float64 0 0) with 0.
  apply IH. intros y Hy. apply Hall. right. exact Hy.
Qed.

Lemma zero_products (results : list (AlgorithmResult float))
      (rw : AlgorithmResult float * float) :
  ensembleWeighting (this_config this) <> by_performance ->
  (forall r, In r results -> alg_score r = 0) ->
  In rw (combine results (calculateAlgorithmWeights this results)) ->
  nmul (alg_score (fst rw)) (snd rw) = 0.
Proof.
  intros Hweighting Hzero Hin. destruct rw as [r w].
  pose proof (in_combine_l _ _ _ _ Hin) as Hr.
  pose proof (in_combine_r _ _ _ _ Hin) as Hw.
  cbn [fst snd]. rewrite (Hzero r Hr).
  unfold calculateAlgorithmWeights in Hw.
  destruct (ensembleWeighting (this_config this)); [congruence| |];
    apply in_map_iff in Hw; destruct Hw as [r' [Hw Hr']]; subst w.
  - rewrite (Hzero r' Hr'). reflexivity.
  - reflexivity.
Qed.

End ZeroScores.

(** X17: when every detector result has score 0 and the weighting is not by
    performance, every contribution the vote returns is NaN (binary64): the
    weighted sum is 0, and each contribution is 0/0. *)
Theorem contributions_of_zero_scores :
  forall (this : EnterpriseAnomalyDetector float)
         (results : list (AlgorithmResult float)) (a : AlgorithmResult float),
    ensembleWeighting (this_config this) <> by_performance ->
    (forall r, In r results -> alg_score r = 0%float) ->
    In a (vote_algorithms (ensembleVote this results)) ->
    alg_contribution a = nan.
Proof.
  intros this results a Hweighting Hzero Ha.
  destruct results as [|r rest]; [destruct Ha|].
  apply (in_map (@alg_contribution float)) in Ha.
  rewrite ensembleVote_contributions in Ha.
  apply in_map_iff in Ha. destruct Ha as [rw [Ha Hrw]]. rewrite <- Ha.
  rewrite (zero_products this (r :: rest) rw Hweighting Hzero Hrw).
  unfold weightedSum. rewrite sum_of_zeros; [reflexivity|].
  intros x Hx. apply in_map_iff in Hx. destruct Hx as [rw' [Hx Hrw']].
  rewrite <- Hx. apply (zero_products this (r :: rest) rw' Hweighting Hzero Hrw').
Qed.

(** X17 at two results with score 0 *)
Lemma contributions_of_zero_scores_witness :
  exists a : AlgorithmResult float,
    ensembleWeighting (this_config (detector float)) <> by_performance
    /\ (forall r, In r [zeroResult; zeroResult] -> alg_score r = 0%float)
    /\ In a (vote_algorithms (ensembleVote (detector float) [zeroResult; zeroResult]))
    /\ alg_contribution a = nan.
Proof.
  assert (Hweighting : ensembleWeighting (this_config (detector float))
                       <> by_performance) by discriminate.
  assert (Hzero : forall r, In r [zeroResult; zeroResult] -> alg_score r = 0%float).
  { intros r [Hr|[Hr|[]]]; rewrite <- Hr; reflexivity. }
  exists (hd zeroResult
             (vote_algorithms (ensembleVote (detector float) [zeroResult; zeroResult]))).
  assert (Hin : In (hd zeroResult
                       (vote_algorithms
                          (ensembleVote (detector float) [zeroResult; zeroResult])))
                   (vote_algorithms
                      (ensembleVote (detector float) [zeroResult; zeroResult])))
    by (left; reflexivity).
  split; [exact Hweighting|]. split; [exact Hzero|]. split; [exact Hin|].
  exact (contributions_of_zero_scores (detector float) [zeroResult; zeroResult]
           _ Hweighting Hzero Hin).
Defined.

(** ** The observability module *)

Section MapFacts.

Variable A : Type.

(** [get] after [set] and [delete] *)
Lemma map_get_set_same (key : string) (v : A) (m : list (string * A)) :
  Observability.map_get key (Observability.map_set key v m) = Some v.
Proof.
  induction m as [|[k x] m IH]; cbn.
  - rewrite String.eqb_refl. reflexivity.
  - destruct (String.eqb k key) eqn:Hk; cbn; rewrite Hk; [reflexivity | exact IH].
Qed.

Lemma map_get_set_other (key key' : string) (v : A) (m : list (string * A)) :
  String.eqb key key' = false ->
  Observability.map_get key' (Observability.map_set key v m)
  = Observability.map_get key' m.
Proof.
  intro Hne. induction m as [|[k x] m IH]; cbn.
  - rewrite Hne. reflexivity.
  - destruct (String.eqb k key) eqn:Hk; cbn.
    + apply String.eqb_eq in Hk. subst k. rewrite Hne. reflexivity.
    + rewrite IH. reflexivity.
Qed.

Lemma map_get_delete_same (key : string) (m : list (string * A)) :
  Observability.map_get key (Observability.map_delete key m) = None.
Proof.
  unfold Observability.map_delete.
  induction m as [|[k x] m IH]; cbn; [reflexivity|].
  destruct (String.eqb k key) eqn:Hk; cbn; [exact IH|].
  rewrite Hk. exact IH.
Qed.

Lemma map_get_delete_other (key key' : string) (m : list (string * A)) :
  String.eqb key key' = false ->
  Observability.map_get key' (Observability.map_delete key m)
  = Observability.map_get key' m.
Proof.
  intro Hne. unfold Observability.map_delete.
  induction m as [|[k x] m IH]; cbn; [reflexivity|].
  destruct (String.eqb k key) eqn:Hk; cbn.
  - apply String.eqb_eq in Hk. subst k. rewrite Hne. exact IH.
  - rewrite IH. reflexivity.
Qed.

End MapFacts.

Section BufferFacts.

Context {T : Type} `{Number T}.

Lemma length_add (metric : @Observability.Metric T)
      (buffer : list (@Observability.Metric T)) :
  List.length (Observability.add metric buffer)
  = if (Observability.maxSize <=? S (List.length buffer))%nat then 0%nat
    else S (List.length buffer).
Proof.
  unfold Observability.add. cbv zeta.
  rewrite length_app. cbn [List.length]. rewrite Nat.add_1_r.
  destruct (Observability.maxSize <=? S (List.length buffer))%nat; [|
    rewrite length_app; cbn; lia].
  unfold Observability.flush. rewrite length_app. cbn [List.length].
  rewrite Nat.add_1_r. reflexivity.
Qed.

End BufferFacts.

(** X18: a recorded metric joins the buffer, and the thousandth one empties
    it: a buffer below [maxSize] has [(length + 1) mod maxSize] metrics after
    [recordMetric], which is below [maxSize] again. *)
Theorem buffer_stays_below_capacity :
  forall (T : Type) (N : Number T) (localeCompare : string -> string -> Z)
         (name : string) (value : T) (dimensions : list (string * string))
         (type : Observability.MetricType)
         (this : @Observability.ObservabilityEngine T) (w : World T),
    (List.length (Observability.buffer this) < Observability.maxSize)%nat ->
    let after := fst (Observability.recordMetric localeCompare name value
                        dimensions type this w) in
    List.length (Observability.buffer after)
    = (S (List.length (Observability.buffer this)) mod Observability.maxSize)%nat
    /\ (List.length (Observability.buffer after) < Observability.maxSize)%nat.
Proof.
  intros T N localeCompare name value dimensions type this w Hbelow after.
  assert (Hlen : List.length (Observability.buffer after)
                 = if (Observability.maxSize
                       <=? S (List.length (Observability.buffer this)))%nat
                   then 0%nat else S (List.length (Observability.buffer this))).
  { unfold after, Observability.recordMetric, bind, ret. cbv zeta. cbn [fst snd].
    destruct type; cbn [Observability.buffer]; apply length_add. }
  rewrite Hlen. unfold Observability.maxSize in *.
  destruct (1000 <=? S (List.length (Observability.buffer this)))%nat eqn:Hfull.
  - apply Nat.leb_le in Hfull.
    assert (Hs : S (List.length (Observability.buffer this)) = 1000%nat) by lia.
    rewrite Hs. split; [reflexivity | lia].
  - apply Nat.leb_gt in Hfull. rewrite Nat.mod_small by lia. split; [reflexivity | lia].
Qed.

(** X18 at the first metric of a new engine *)
Lemma buffer_stays_below_capacity_witness :
  (List.length (Observability.buffer (@Observability.newEngine float))
   < Observability.maxSize)%nat
  /\ List.length
       (Observability.buffer
          (fst (Observability.recordMetric (fun _ _ => 0%Z) "latency" 5%float []
                  Observability.Histogram Observability.newEngine sampleWorld)))
     = 1%nat.
Proof.
  assert (Hbelow : (List.length (Observability.buffer (@Observability.newEngine float))
                    < Observability.maxSize)%nat)
    by (unfold Observability.maxSize; cbn; lia).
  split; [exact Hbelow|].
  exact (proj1 (buffer_stays_below_capacity float Float64 (fun _ _ => 0%Z)
                  "latency" 5%float [] Observability.Histogram
                  Observability.newEngine sampleWorld Hbelow)).
Defined.

(** X19: after [increment], [getCurrentValue] of the same name and
    dimensions is the gauge stored under their key if there is one, and
    otherwise the counter before the call (0 if there was none) plus the
    amount: a gauge hides the counter of its key. *)
Theorem increment_then_read :
  forall (T : Type) (N : Number T) (localeCompare : string -> string -> Z)
         (name : string) (dimensions : list (string * string)) (amount : T)
         (this : @Observability.ObservabilityEngine T) (w : World T),
    let key := Observability.getMetricKey localeCompare name dimensions in
    Observability.getCurrentValue localeCompare name dimensions
      (fst (Observability.increment localeCompare name dimensions amount this w))
    = match Observability.map_get key (Observability.gauges this) with
      | Some g => g
      | None =>
          nadd match Observability.map_get key (Observability.counters this) with
               | Some c => c
               | None => of_Z 0
               end amount
      end.
Proof.
  intros T N localeCompare name dimensions amount this w key.
  unfold Observability.increment, Observability.recordMetric,
         Observability.getCurrentValue, bind, ret.
  cbv zeta. cbn [fst snd Observability.gauges Observability.counters].
  fold key. destruct (Observability.map_get key (Observability.gauges this));
    [reflexivity|].
  rewrite map_get_set_same. reflexivity.
Qed.

Section CorrelationFacts.

Context {T : Type} `{Number T}.

Lemma length_correlationPairs (metrics : list string) :
  (2 * List.length (@Observability.correlationPairs T _ metrics)
   = List.length metrics * (List.length metrics - 1))%nat.
Proof.
  induction metrics as [|m rest IH]; [reflexivity|].
  cbn [Observability.correlationPairs List.length].
  rewrite length_app, length_map. nia.
Qed.

Lemma in_correlationPairs (metrics : list string) (c : @Observability.Correlation T) :
  In c (Observability.correlationPairs metrics) ->
  Observability.coefficient c = of_Z 0
  /\ Observability.strength c = Observability.categorizeCorrelation (of_Z 0).
Proof.
  induction metrics as [|m rest IH]; intro Hin; [destruct Hin|].
  cbn [Observability.correlationPairs] in Hin.
  apply in_app_or in Hin. destruct Hin as [Hin|Hin]; [|apply IH; exact Hin].
  apply in_map_iff in Hin. destruct Hin as [m' [Hc _]]. subst c.
  split; reflexivity.
Qed.

End CorrelationFacts.

(** X20: [findCorrelations] returns one entry for each unordered pair of the
    given metrics, and each has coefficient 0 and strength [weak] (binary64):
    [calculateCorrelation] returns 0 whatever the metrics. *)
Theorem findCorrelations_finds_none :
  forall (metrics : list string),
    (2 * List.length (@Observability.findCorrelations float _ metrics)
     = List.length metrics * (List.length metrics - 1))%nat
    /\ forall c, In c (@Observability.findCorrelations float _ metrics) ->
                 Observability.coefficient c = 0%float
                 /\ Observability.strength c = Observability.weak.
Proof.
  intro metrics. unfold Observability.findCorrelations. split.
  - rewrite length_sort_by. apply length_correlationPairs.
  - intros c Hc. apply in_sort_by in Hc.
    destruct (in_correlationPairs metrics c Hc) as [Hzero Hweak].
    split; [exact Hzero|]. rewrite Hweak. reflexivity.
Qed.

(** X21: a span ends once.  [endSpan] with the id of the span that
    [startSpan] returned gives the span back with its end time, the next
    reading of the clock, and its duration, the end time minus the start
    time; the span is no longer active, and a second [endSpan] with that id
    returns null and reads nothing. *)
Theorem span_ends_once :
  forall (T : Type) (N : Number T) (V : Type) (toString36 : T -> string)
         (operation : string) (traceId parentId : option string)
         (this : Observability.DistributedTracer V) (w : World T),
    let started := Observability.startSpan toString36 operation traceId parentId
                                           this w in
    let span := fst (fst started) in
    let ended := Observability.endSpan (Observability.span_id span)
                                       (snd (fst started)) (snd started) in
    let stop := clock (snd started) 0%nat in
    fst (fst ended)
    = Some {| Observability.span_id := Observability.span_id span;
              Observability.span_traceId := Observability.span_traceId span;
              Observability.span_parentId := parentId;
              Observability.span_operation := operation;
              Observability.span_startTime := Observability.span_startTime span;
              Observability.span_endTime := Some stop;
              Observability.span_duration :=
                Some (stop - Observability.span_startTime span)%Z;
              Observability.span_tags := [];
              Observability.span_logs := [] |}
    /\ Observability.map_get (Observability.span_id span)
         (Observability.activeSpans (snd (fst ended))) = None
    /\ Observability.endSpan (Observability.span_id span) (snd (fst ended))
                             (snd ended)
       = (None, snd (fst ended), snd ended).
Proof.
  intros T N V toString36 operation traceId parentId this w started span ended stop.
  assert (Hactive :
            Observability.map_get (Observability.span_id span)
              (Observability.activeSpans (snd (fst started))) = Some span).
  { unfold span, started, Observability.startSpan, bind, ret. cbv zeta.
    cbn [fst snd Observability.activeSpans Observability.span_id].
    apply map_get_set_same. }
  assert (Hgone :
            Observability.map_get (Observability.span_id span)
              (Observability.activeSpans (snd (fst ended))) = None).
  { unfold ended, Observability.endSpan. rewrite Hactive.
    unfold bind, ret. cbn [fst snd Observability.activeSpans].
    apply map_get_delete_same. }
  split; [|split; [exact Hgone|]].
  - unfold ended, Observability.endSpan. rewrite Hactive.
    unfold bind, ret, Date_now. cbn [fst snd]. reflexivity.
  - unfold Observability.endSpan at 1. rewrite Hgone. reflexivity.
Qed.

(** ** [detect] and its collaborators *)

Section ObservedFacts.

Context {T : Type} `{Number T}.
Variable this : EnterpriseAnomalyDetector T.
Variable localeCompare : string -> string -> Z.
Variable toString36 : T -> string.

(** The two paths of [detect], with the collaborators *)
Lemma detectObserved_short (c : Collaborators T) (dataPoint : DataPoint T)
      (historicalData : list (DataPoint T)) (w : World T) :
  (Z.of_nat (List.length historicalData) <? minDataPoints (this_config this))%Z = true ->
  let started := Observability.startSpan toString36 "anomaly_detection" None None
                                         (tracer c) w in
  exists processingTime,
    detectObserved this localeCompare toString36 c dataPoint historicalData w
    = (Ok (createNonAnomalyResult this dataPoint "Insufficient historical data"
             processingTime),
       {| tracer := Observability.annotate
                      (Observability.span_id (fst (fst started)))
                      "insufficient_data" (TagBoolean true) (snd (fst started));
          observability := observability c |},
       snd (detect this dataPoint historicalData w)).
Proof.
  intros Hshort started. unfold detectObserved, detect, bind. cbn [fst snd].
  rewrite Hshort. eexists. reflexivity.
Qed.

End ObservedFacts.

Section ObservedLong.

Context {T : Type} `{Number T}.
Variable this : EnterpriseAnomalyDetector T.
Variable localeCompare : string -> string -> Z.
Variable toString36 : T -> string.

(** What [startSpan] leaves active is found by [annotate] and [endSpan]. *)
Lemma startSpan_active (V : Type) (operation : string)
      (traceId parentId : option string)
      (t : Observability.DistributedTracer V) (w : World T) :
  let started := Observability.startSpan toString36 operation traceId parentId t w in
  Observability.map_get (Observability.span_id (fst (fst started)))
    (Observability.activeSpans (snd (fst started)))
  = Some (fst (fst started)).
Proof.
  cbv zeta. unfold Observability.startSpan, bind, ret.
  cbn [fst snd Observability.activeSpans Observability.span_id].
  apply map_get_set_same.
Qed.

Lemma endSpan_active (V : Type) (spanId : string) (span : Observability.Span V)
      (t : Observability.DistributedTracer V) (w : World T) :
  Observability.map_get spanId (Observability.activeSpans t) = Some span ->
  snd (Observability.endSpan spanId t w) = snd (@tracer_endSpan T w)
  /\ Observability.map_get spanId
       (Observability.activeSpans (snd (fst (Observability.endSpan spanId t w))))
     = None.
Proof.
  intro Hactive. unfold Observability.endSpan. rewrite Hactive.
  unfold bind, ret. cbn [fst snd Observability.activeSpans].
  split; [reflexivity | apply map_get_delete_same].
Qed.

Lemma annotate_active (V : Type) (spanId key : string) (v : V)
      (span : Observability.Span V) (t : Observability.DistributedTracer V) :
  Observability.map_get spanId (Observability.activeSpans t) = Some span ->
  exists span',
    Observability.map_get spanId
      (Observability.activeSpans (Observability.annotate spanId key v t))
    = Some span'
    /\ Observability.span_operation span' = Observability.span_operation span
    /\ Observability.span_endTime span' = Observability.span_endTime span
    /\ Observability.span_tags span'
       = Observability.map_set key v (Observability.span_tags span).
Proof.
  intro Hactive. unfold Observability.annotate. rewrite Hactive.
  cbn [Observability.activeSpans]. eexists.
  split; [apply map_get_set_same|]. repeat split.
Qed.

Lemma detectObserved_long (c : Collaborators T) (dataPoint : DataPoint T)
      (historicalData : list (DataPoint T)) (w : World T) :
  (Z.of_nat (List.length historicalData) <? minDataPoints (this_config this))%Z = false ->
  let started := Observability.startSpan toString36 "anomaly_detection" None None
                                         (tracer c) w in
  let id := Observability.span_id (fst (fst started)) in
  let out := detectObserved this localeCompare toString36 c dataPoint historicalData w in
  fst (fst out) = fst (detect this dataPoint historicalData w)
  /\ snd out = snd (detect this dataPoint historicalData w)
  /\ Observability.map_get id (Observability.activeSpans (tracer (snd (fst out))))
     = None.
Proof.
  intros Hlong started id out.
  pose proof (startSpan_active TagValue "anomaly_detection" None None (tracer c) w)
    as Hactive.
  cbv zeta in Hactive. fold started in Hactive. fold id in Hactive.
  unfold out, detectObserved, detect, bind. cbn [fst snd].
  rewrite Hlong.
  change (snd (Observability.startSpan toString36 "anomaly_detection" None None
                 (tracer c) w))
    with (snd (@tracer_startSpan T w)).
  fold started. fold id.
  match goal with
  | |- context [generateExplanation ?v ?d ?b] =>
      destruct (generateExplanation v d b) as [explanation|error]
  end.
  - match goal with
    | |- context [Observability.endSpan id (snd (fst started)) ?w'] =>
        destruct (endSpan_active TagValue id (fst (fst started))
                    (snd (fst started)) w' Hactive) as [Hworld Hgone]
    end.
    split; [reflexivity|]. split; [|exact Hgone].
    unfold ret at 1. cbn [snd]. rewrite Hworld.
    match goal with
    | |- context [vote_isAnomaly ?v] => destruct (vote_isAnomaly v)
    end; reflexivity.
  - destruct (annotate_active TagValue id "error" (TagError error)
                (fst (fst started)) (snd (fst started)) Hactive)
      as [span' [Hactive' _]].
    match goal with
    | |- context [Observability.endSpan id ?t ?w'] =>
        destruct (endSpan_active TagValue id span' t w' Hactive')
          as [Hworld Hgone]
    end.
    split; [reflexivity|]. split; [|exact Hgone].
    unfold ret at 1. cbn [snd]. rewrite Hworld. reflexivity.
Qed.

End ObservedLong.

Section ObservedMetrics.

Context {T : Type} `{Number T}.
Variable this : EnterpriseAnomalyDetector T.
Variable localeCompare : string -> string -> Z.
Variable toString36 : T -> string.

Lemma getMetricKey_plain (name : string) :
  Observability.getMetricKey localeCompare name [] = name.
Proof. reflexivity. Qed.

End ObservedMetrics.

(** X22: what [detect] returns, and what it reads of the clock and of the
    random numbers, does not depend on the spans and metrics that [tracer]
    and [observability] hold: with them or without, the result and the
    remaining world are those of [detect]. *)
Theorem detect_ignores_its_collaborators :
  forall (T : Type) (N : Number T) (this : EnterpriseAnomalyDetector T)
         (localeCompare : string -> string -> Z) (toString36 : T -> string)
         (c : Collaborators T) (dataPoint : DataPoint T)
         (historicalData : list (DataPoint T)) (w : World T),
    fst (fst (detectObserved this localeCompare toString36 c dataPoint
                historicalData w))
    = fst (detect this dataPoint historicalData w)
    /\ snd (detectObserved this localeCompare toString36 c dataPoint
              historicalData w)
       = snd (detect this dataPoint historicalData w).
Proof.
  intros T N this localeCompare toString36 c dataPoint historicalData w.
  destruct (Z.of_nat (List.length historicalData) <? minDataPoints (this_config this))%Z
    eqn:Hlen.
  - unfold detectObserved, detect, bind. cbn [fst snd]. rewrite Hlen.
    split; reflexivity.
  - destruct (detectObserved_long this localeCompare toString36 c dataPoint
                historicalData w Hlen) as [Hresult [Hworld _]].
    split; assumption.
Qed.

(** X23: the span of a detection.  When the history is shorter than
    [minDataPoints], [detect] returns without ending the span it started: the
    span stays active, with no end time and the tag insufficient_data.
    Otherwise, whether [detect] returns or raises, the span has been ended
    and is no longer active. *)
Theorem detect_span_lifecycle :
  forall (T : Type) (N : Number T) (this : EnterpriseAnomalyDetector T)
         (localeCompare : string -> string -> Z) (toString36 : T -> string)
         (c : Collaborators T) (dataPoint : DataPoint T)
         (historicalData : list (DataPoint T)) (w : World T),
    let id :=
      Observability.span_id
        (fst (fst (Observability.startSpan toString36 "anomaly_detection"
                     None None (tracer c) w))) in
    let after :=
      tracer (snd (fst (detectObserved this localeCompare toString36 c dataPoint
                          historicalData w))) in
    if (Z.of_nat (List.length historicalData) <? minDataPoints (this_config this))%Z
    then exists span,
        Observability.map_get id (Observability.activeSpans after) = Some span
        /\ Observability.span_operation span = "anomaly_detection"%string
        /\ Observability.span_endTime span = None
        /\ Observability.span_tags span
           = [("insufficient_data"%string, TagBoolean true)]
    else Observability.map_get id (Observability.activeSpans after) = None.
Proof.
  intros T N this localeCompare toString36 c dataPoint historicalData w id after.
  destruct (Z.of_nat (List.length historicalData) <? minDataPoints (this_config this))%Z
    eqn:Hlen.
  - destruct (detectObserved_short this localeCompare toString36 c dataPoint
                historicalData w Hlen) as [t Ht].
    unfold after. rewrite Ht. cbn [fst snd tracer].
    pose proof (startSpan_active toString36 TagValue "anomaly_detection" None None
                  (tracer c) w) as Hactive.
    cbv zeta in Hactive.
    destruct (annotate_active TagValue _ "insufficient_data" (TagBoolean true)
                _ _ Hactive) as [span' [Hfound [Hop [Hend Htags]]]].
    exists span'. split; [exact Hfound|].
    split; [rewrite Hop; reflexivity|].
    split; [rewrite Hend; reflexivity|].
    rewrite Htags. reflexivity.
  - apply (detectObserved_long this localeCompare toString36 c dataPoint
             historicalData w Hlen).
Qed.

(** X24: a detection that completes past the length check adds 1 to the
    counter anomaly.detection.total, adds 1 to the counter
    anomaly.detection.anomalies when the result is flagged and leaves it
    otherwise, and sets no gauge. *)
Theorem detect_counts_detections :
  forall (T : Type) (N : Number T) (this : EnterpriseAnomalyDetector T)
         (localeCompare : string -> string -> Z) (toString36 : T -> string)
         (c : Collaborators T) (dataPoint : DataPoint T)
         (historicalData : list (DataPoint T)) (w : World T)
         (r : AnomalyResult T) (c' : Collaborators T),
    fst (detectObserved this localeCompare toString36 c dataPoint historicalData w)
    = (Ok r, c') ->
    (minDataPoints (this_config this) <= Z.of_nat (List.length historicalData))%Z ->
    let count := fun (name : string) (o : @Observability.ObservabilityEngine T) =>
                   match Observability.map_get name (Observability.counters o) with
                   | Some n => n
                   | None => of_Z 0
                   end in
    count "anomaly.detection.total"%string (observability c')
    = nadd (count "anomaly.detection.total"%string (observability c)) (of_Z 1)
    /\ count "anomaly.detection.anomalies"%string (observability c')
       = (if isAnomaly r
          then nadd (count "anomaly.detection.anomalies"%string (observability c))
                    (of_Z 1)
          else count "anomaly.detection.anomalies"%string (observability c))
    /\ Observability.gauges (observability c')
       = Observability.gauges (observability c).
Proof.
  intros T N this localeCompare toString36 c dataPoint historicalData w r c'
         Hout Hlong count.
  apply Z.ltb_ge in Hlong.
  unfold detectObserved, bind in Hout. cbn [fst snd] in Hout.
  rewrite Hlong in Hout.
  match type of Hout with
  | context [generateExplanation ?v ?d ?b] =>
      destruct (generateExplanation v d b) as [explanation|error];
        [|discriminate Hout]
  end.
  unfold ret at 1 in Hout. cbn [fst] in Hout.
  injection Hout as Hr Hc. subst r c'.
  unfold count. cbn [isAnomaly observability].
  match goal with
  | |- context [vote_isAnomaly ?v] => destruct (vote_isAnomaly v)
  end;
    unfold Observability.increment, Observability.histogram,
           Observability.recordMetric, bind, ret;
    cbn [fst snd Observability.counters Observability.gauges];
    rewrite ?(getMetricKey_plain localeCompare).
  - rewrite (map_get_set_other _ "anomaly.detection.anomalies"
               "anomaly.detection.total") by reflexivity.
    rewrite !map_get_set_same.
    rewrite (map_get_set_other _ "anomaly.detection.total"
               "anomaly.detection.anomalies") by reflexivity.
    repeat split.
  - rewrite map_get_set_same.
    rewrite (map_get_set_other _ "anomaly.detection.total"
               "anomaly.detection.anomalies") by reflexivity.
    repeat split.
Qed.

(** X24 at the value 2 against the history [1, 2, 3], from collaborators that
    hold nothing *)
Lemma detect_counts_detections_witness :
  exists (r : AnomalyResult float) (c' : Collaborators float),
    fst (detectObserved (newDetector float (configOf ["zscore"]%string 3))
           (fun _ _ => 0%Z) (fun _ => "0.4fzyo82mvyr"%string) idle
           (reading 2%float) (map reading [1; 2; 3]%float) sampleWorld)
    = (Ok r, c')
    /\ (minDataPoints (this_config (newDetector float (configOf ["zscore"]%string 3)))
        <= Z.of_nat (List.length (map reading [1; 2; 3]%float)))%Z
    /\ (let count :=
          fun (name : string) (o : @Observability.ObservabilityEngine float) =>
            match Observability.map_get name (Observability.counters o) with
            | Some n => n
            | None => of_Z 0
            end in
        count "anomaly.detection.total"%string (observability c')
        = nadd (count "anomaly.detection.total"%string (observability idle))
               (of_Z 1)
        /\ count "anomaly.detection.anomalies"%string (observability c')
           = (if isAnomaly r
              then nadd (count "anomaly.detection.anomalies"%string
                               (observability idle)) (of_Z 1)
              else count "anomaly.detection.anomalies"%string (observability idle))
        /\ Observability.gauges (observability c')
           = Observability.gauges (observability idle)).
Proof.
  destruct (fst (detectObserved (newDetector float (configOf ["zscore"]%string 3))
                   (fun _ _ => 0%Z) (fun _ => "0.4fzyo82mvyr"%string) idle
                   (reading 2%float) (map reading [1; 2; 3]%float) sampleWorld))
    as [[r|e] c'] eqn:Hout; [|vm_compute in Hout; discriminate Hout].
  exists r, c'. split; [reflexivity|].
  assert (Hlong : (minDataPoints
                     (this_config (newDetector float (configOf ["zscore"]%string 3)))
                   <= Z.of_nat (List.length (map reading [1; 2; 3]%float)))%Z)
    by (cbn; lia).
  split; [exact Hlong|].
  exact (detect_counts_detections float Float64
           (newDetector float (configOf ["zscore"]%string 3))
           (fun _ _ => 0%Z) (fun _ => "0.4fzyo82mvyr"%string) idle
           (reading 2%float) (map reading [1; 2; 3]%float) sampleWorld
           r c' Hout Hlong).
Defined.

